(** * ScanQR: scan debouncing, local store and sync, embedded in Rocq

    Shallow embedding of the scanner screen of ScanQR
    (src/unnamed/part_000, first component [QRScannerScreen]) together with
    the alternate screen further down the same file and the store of
    [../src/database], which is not part of the sources and is modelled
    from the spec.

    The screen keeps its deduplication state in React refs, its list and
    statistics in React state, and talks to the database, the network, the
    notification system and [Alert] through asynchronous calls.  All of this
    is threaded through one explicit [World] value by a small state and error
    monad [M]: a rejected promise is [Err], a thrown exception caught by
    [try ... catch] is [try_catch].  Time is explicit: every event carries the
    value [Date.now()] would return, and [setTimeout] pushes a pending timer
    that a later [Tick] fires. *)

From Stdlib Require Import String Ascii ZArith List Bool Lia.
Import ListNotations.
Set Warnings "-register-all".

Module ScanQR.

(** ** Data model *)

(** [ScannedCode] of [../src/models]: identifier, payload, symbology tag and
    creation timestamp (milliseconds). *)
Record ScannedCode := mkCode {
  id : nat;
  data : string;
  type : string;
  timestamp : Z
}.

(** Statistics as returned by [obtenerEstadisticas]: total count, count per
    type tag and timestamp of the last insertion. *)
Record Stats := mkStats {
  total : nat;
  porTipo : list (string * nat);
  ultimoEscaneo : option Z
}.

Definition emptyStats : Stats := mkStats 0 [] None.

(** The JSON values built by [JSON.stringify] in the sync loop. *)
Inductive json :=
| JStr (s : string)
| JNum (z : Z)
| JObj (fields : list (string * json)).

(** One [fetch] call: URL, method, headers and body. *)
Record Request := mkRequest {
  url : string;
  method : string;
  headers : list (string * string);
  body : json
}.

(** Callbacks registered with [setTimeout]. *)
Inductive Timer :=
| TRelease                     (* isProcessingRef.current = false *)
| TLocalModeNotice (n : nat)   (* "Modo Local" alert with the count, primary screen *)
| TLocalModeNoticeAlt.         (* "Modo Local" alert without count, alternate screen *)

(** The three refs of the scanner screen. *)
Record Refs := mkRefs {
  lastScannedCode : string;
  lastScannedTime : Z;
  isProcessing : bool
}.

(** Database connection and network: [db] says whether [connectDb] has
    succeeded ([if (db)] in the source).  [dbFaults] and [netFaults] are the
    outcomes of the successive database and network calls ([true]: the
    promise rejects); once exhausted, calls succeed.  [dbCalls] counts the
    database calls made and [requests] records every [fetch] issued. *)
Record Backend := mkBackend {
  db : bool;
  store : list ScannedCode;
  next_id : nat;
  dbFaults : list bool;
  dbCalls : nat;
  netFaults : list bool;
  requests : list Request
}.

(** React state of the screen and its user-visible outputs. *)
Record Ui := mkUi {
  scannedCodes : list ScannedCode;
  stats : Stats;
  isSyncing : bool;
  alerts : list (string * string);
  notifications : list string;
  logs : list string
}.

Record World := mkWorld {
  refs : Refs;
  timers : list (Z * Timer);
  inflight : option (string * string);
  backend : Backend;
  ui : Ui
}.

Definition with_refs (r : Refs) (w : World) : World :=
  mkWorld r (timers w) (inflight w) (backend w) (ui w).
Definition with_timers (t : list (Z * Timer)) (w : World) : World :=
  mkWorld (refs w) t (inflight w) (backend w) (ui w).
Definition with_inflight (i : option (string * string)) (w : World) : World :=
  mkWorld (refs w) (timers w) i (backend w) (ui w).
Definition with_backend (b : Backend) (w : World) : World :=
  mkWorld (refs w) (timers w) (inflight w) b (ui w).
Definition with_ui (u : Ui) (w : World) : World :=
  mkWorld (refs w) (timers w) (inflight w) (backend w) u.

(** ** The state and error monad *)

Inductive Res (A : Type) :=
| Ok (a : A)
| Err (e : string).
Arguments Ok {A} a.
Arguments Err {A} e.

Definition M (A : Type) : Type := World -> Res A * World.

Definition ret {A} (a : A) : M A := fun w => (Ok a, w).

Definition bind {A B} (m : M A) (k : A -> M B) : M B :=
  fun w =>
    match m w with
    | (Ok a, w') => k a w'
    | (Err e, w') => (Err e, w')
    end.

Notation "x <- m ;; k" := (bind m (fun x => k))
  (at level 61, m at next level, right associativity).

Definition get : M World := fun w => (Ok w, w).

Definition modify (f : World -> World) : M unit := fun w => (Ok tt, f w).

(** [try { m } catch (error) { h(error) }] *)
Definition try_catch {A} (m : M A) (h : string -> M A) : M A :=
  fun w =>
    match m w with
    | (Ok a, w') => (Ok a, w')
    | (Err e, w') => h e w'
    end.

(** [for (const x of l) await f(x)] *)
Fixpoint forM_ {A} (f : A -> M unit) (l : list A) : M unit :=
  match l with
  | [] => ret tt
  | x :: l' => _ <- f x;; forM_ f l'
  end.

(** ** Platform effects *)

Definition upd_ui (f : Ui -> Ui) : M unit :=
  modify (fun w => with_ui (f (ui w)) w).

(** [console.log] and [console.error]. *)
Definition log (msg : string) : M unit :=
  upd_ui (fun u => mkUi (scannedCodes u) (stats u) (isSyncing u) (alerts u)
                        (notifications u) (logs u ++ [msg])).

(** [Alert.alert(title, message)]. *)
Definition alert (title msg : string) : M unit :=
  upd_ui (fun u => mkUi (scannedCodes u) (stats u) (isSyncing u)
                        (alerts u ++ [(title, msg)]) (notifications u) (logs u)).

(** [showNotification]: the source catches every error of the platform call
    and falls back to an alert with the same text, so the call never rejects
    and the message always reaches the user; it is recorded once. *)
Definition showNotification (msg : string) : M unit :=
  upd_ui (fun u => mkUi (scannedCodes u) (stats u) (isSyncing u) (alerts u)
                        (notifications u ++ [msg]) (logs u)).

Definition setScannedCodes (l : list ScannedCode) : M unit :=
  upd_ui (fun u => mkUi l (stats u) (isSyncing u) (alerts u)
                        (notifications u) (logs u)).

Definition setStats (s : Stats) : M unit :=
  upd_ui (fun u => mkUi (scannedCodes u) s (isSyncing u) (alerts u)
                        (notifications u) (logs u)).

Definition setIsSyncing (b : bool) : M unit :=
  upd_ui (fun u => mkUi (scannedCodes u) (stats u) b (alerts u)
                        (notifications u) (logs u)).

(** [setTimeout(cb, delay)] issued at time [now]. *)
Definition setTimeout (now delay : Z) (t : Timer) : M unit :=
  modify (fun w => with_timers (timers w ++ [((now + delay)%Z, t)]) w).

(** Decimal rendering of a count inside a template literal. *)
Fixpoint digits (fuel n : nat) (acc : string) : string :=
  match fuel with
  | O => acc
  | S f =>
      let acc' := String (ascii_of_nat (48 + n mod 10)) acc in
      if Nat.ltb n 10 then acc' else digits f (n / 10) acc'
  end.

Definition string_of_nat (n : nat) : string := digits (S n) n EmptyString.

(** ** The store of [../src/database] *)

(** Modelled from the spec: [computeStats] of the ScanStore (its
    [obtenerEstadisticas] lives in [../src/database], not in the sources):
    total count, count per type tag in order of first appearance, and the
    timestamp of the most recent insertion. *)
Fixpoint count_type (ty : string) (l : list ScannedCode) : nat :=
  match l with
  | [] => O
  | c :: l' => (if String.eqb (type c) ty then 1 else 0) + count_type ty l'
  end.

Fixpoint dedup_types (seen : list string) (l : list ScannedCode) : list string :=
  match l with
  | [] => []
  | c :: l' =>
      if existsb (String.eqb (type c)) seen then dedup_types seen l'
      else type c :: dedup_types (type c :: seen) l'
  end.

Definition computeStats (l : list ScannedCode) : Stats :=
  mkStats (length l)
          (map (fun ty => (ty, count_type ty l)) (dedup_types [] l))
          (match l with [] => None | c :: _ => Some (timestamp c) end).

(** Modelled from the spec: one call of the persistence backend.  It is made
    exactly once (no retry); when the backend fails the promise rejects with
    a storage error and the store is untouched. *)
Definition db_call {A} (op : Backend -> A * Backend) : M A :=
  fun w =>
    let b := backend w in
    let b1 := mkBackend (db b) (store b) (next_id b) (tl (dbFaults b))
                        (S (dbCalls b)) (netFaults b) (requests b) in
    match dbFaults b with
    | true :: _ => (Err "StorageError"%string, with_backend b1 w)
    | _ => let (a, b2) := op b1 in (Ok a, with_backend b2 w)
    end.

Definition set_store (s : list ScannedCode) (nid : nat) (b : Backend) : Backend :=
  mkBackend (db b) s nid (dbFaults b) (dbCalls b) (netFaults b) (requests b).

(** Modelled from the spec: [exists(payload)], true when some stored record
    has this payload. *)
Definition existeCodigo (p : string) : M bool :=
  db_call (fun b => (existsb (fun c => String.eqb (data c) p) (store b), b)).

(** Modelled from the spec: [insert(payload, typeTag)] always creates a new
    record with a fresh identifier and the current time; the store is kept
    most-recent-first. *)
Definition insertarCodigo (p ty : string) (now : Z) : M ScannedCode :=
  db_call (fun b =>
    let c := mkCode (next_id b) p ty now in
    (c, set_store (c :: store b) (S (next_id b)) b)).

(** Modelled from the spec: [list()], most-recent-first. *)
Definition consultarCodigos : M (list ScannedCode) :=
  db_call (fun b => (store b, b)).

(** Modelled from the spec: [computeStats()]. *)
Definition obtenerEstadisticas : M Stats :=
  db_call (fun b => (computeStats (store b), b)).

(** Modelled from the spec: [deleteById(id)]. *)
Definition eliminarCodigo (i : nat) : M unit :=
  db_call (fun b =>
    (tt, set_store (filter (fun c => negb (Nat.eqb (id c) i)) (store b))
                   (next_id b) b)).

(** Modelled from the spec: [clearAll()]. *)
Definition limpiarCodigos : M unit :=
  db_call (fun b => (tt, set_store [] (next_id b) b)).

(** [fetch]: the request is issued; the promise rejects on a network
    failure and otherwise resolves, whatever the HTTP status. *)
Definition fetch (r : Request) : M unit :=
  fun w =>
    let b := backend w in
    let b1 := mkBackend (db b) (store b) (next_id b) (dbFaults b) (dbCalls b)
                        (tl (netFaults b)) (requests b ++ [r]) in
    match netFaults b with
    | true :: _ => (Err "TypeError: Network request failed"%string, with_backend b1 w)
    | _ => (Ok tt, with_backend b1 w)
    end.

(** ** The scanner screen (src/unnamed/part_000, [QRScannerScreen]) *)

Definition SCAN_COOLDOWN : Z := 3000.
Definition PROCESSING_TIMEOUT : Z := 1000.

(** Outcome of the two guards at the top of [onBarcodeScanned]. *)
Inductive Decision := Accept | RejectBusy | RejectDuplicate.

(** Synchronous part of [onBarcodeScanned], up to its first [await]: the
    processing guard, the same-code cooldown guard, and on acceptance the
    three ref writes.  The accepted payload and its symbology become the
    pending asynchronous work ([inflight]), run by [onBarcodeScanned_body]
    when it settles. *)
Definition onBarcodeScanned (scannedData ty : string) (currentTime : Z)
    (w : World) : Decision * World :=
  let r := refs w in
  if isProcessing r then
    (RejectBusy, snd (log "Escaneo ignorado: ya procesando" w))
  else if String.eqb (lastScannedCode r) scannedData
          && (currentTime - lastScannedTime r <? SCAN_COOLDOWN)%Z then
    (RejectDuplicate, snd (log "scaneo ignorado: mismo código muy reciente" w))
  else
    let w1 := with_refs (mkRefs scannedData currentTime true) w in
    let w2 := snd (log ("Procesando escaneo: " ++ scannedData) w1) in
    (Accept, with_inflight (Some (scannedData, ty)) w2).

(** [updateData(database)]: both queries, then both state updates; any
    error is logged and swallowed. *)
Definition updateData : M unit :=
  try_catch
    (codes <- consultarCodigos;;
     statistics <- obtenerEstadisticas;;
     _ <- setScannedCodes codes;;
     setStats statistics)
    (fun error => log ("Error actualizando datos: " ++ error)).

(** The [try { ... } catch (error) { ... }] of [onBarcodeScanned], run when
    its awaited work settles at time [now]. *)
Definition onBarcodeScanned_try (scannedData ty : string) (now : Z) : M unit :=
  try_catch
    (w <- get;;
     if db (backend w) then
       existe <- existeCodigo scannedData;;
       if existe then
         showNotification ("Código ya escaneado: " ++ scannedData)
       else
         _ <- showNotification ("Nuevo código escaneado: " ++ scannedData);;
         _ <- insertarCodigo scannedData ty now;;
         updateData
     else ret tt)
    (fun error =>
       _ <- log ("Error procesando escaneo: " ++ error);;
       alert "Error" "No se pudo procesar el código escaneado").

(** The asynchronous rest of [onBarcodeScanned]: the [try]/[catch], then the
    [finally] that schedules the release of the processing flag
    [PROCESSING_TIMEOUT] after the work has settled. *)
Definition onBarcodeScanned_body (scannedData ty : string) (now : Z) : M unit :=
  _ <- onBarcodeScanned_try scannedData ty now;;
  setTimeout now PROCESSING_TIMEOUT TRelease.

(** [deleteCode(id)] *)
Definition deleteCode (i : nat) : M unit :=
  w <- get;;
  if db (backend w) then
    try_catch
      (_ <- eliminarCodigo i;; updateData)
      (fun error =>
         _ <- log ("Error eliminando código: " ++ error);;
         alert "Error" "No se pudo eliminar el código")
  else ret tt.

(** The confirmed action of [clearScannedCodes] (its "Eliminar" button). *)
Definition clearScannedCodes_confirmed : M unit :=
  w <- get;;
  if db (backend w) then
    try_catch
      (_ <- limpiarCodigos;;
       _ <- updateData;;
       alert "Éxito" "Historial limpiado")
      (fun error =>
         _ <- log ("Error limpiando códigos: " ++ error);;
         alert "Error" "No se pudo limpiar el historial")
  else ret tt.

(** The callbacks handed to [setTimeout]. *)
Definition run_timer (t : Timer) : M unit :=
  match t with
  | TRelease =>
      _ <- modify (fun w => let r := refs w in
                   with_refs (mkRefs (lastScannedCode r) (lastScannedTime r) false) w);;
      log "Escaneo desbloqueado"
  | TLocalModeNotice n =>
      _ <- alert "Modo Local"
             ("Estás trabajando en modo local. Tienes " ++ string_of_nat n
              ++ " códigos almacenados localmente.");;
      setIsSyncing false
  | TLocalModeNoticeAlt =>
      _ <- alert "Modo Local"
             "Estás trabajando en modo local. La sincronización con el servidor no está disponible.";;
      setIsSyncing false
  end.

Definition is_due (now : Z) (e : Z * Timer) : bool := (fst e <=? now)%Z.

(** The clock reaches [now]: every timer whose deadline has passed fires, in
    the order the timers were registered. *)
Definition fire_timers (now : Z) (w : World) : World :=
  let due := filter (is_due now) (timers w) in
  let w0 := with_timers (filter (fun e => negb (is_due now e)) (timers w)) w in
  fold_left (fun w' e => snd (run_timer (snd e) w')) due w0.

(** Events seen by the screen: a decoded barcode, the settling of the pending
    work of an accepted scan, and the passing of time. *)
Inductive Event :=
| Scan (scannedData ty : string) (now : Z)
| Settle (now : Z)
| Tick (now : Z).

Definition step (e : Event) (w : World) : option Decision * World :=
  match e with
  | Scan d ty now =>
      let (dec, w') := onBarcodeScanned d ty now w in (Some dec, w')
  | Settle now =>
      match inflight w with
      | Some (d, ty) => (None, snd (onBarcodeScanned_body d ty now (with_inflight None w)))
      | None => (None, w)
      end
  | Tick now => (None, fire_timers now w)
  end.

(** Runs a sequence of events; returns the decisions taken for the scans, in
    order, and the final world. *)
Fixpoint run (evs : list Event) (w : World) : list Decision * World :=
  match evs with
  | [] => ([], w)
  | e :: evs' =>
      let (o, w1) := step e w in
      let (ds, w2) := run evs' w1 in
      (match o with Some d => d :: ds | None => ds end, w2)
  end.

(** ** Synchronisation *)

Definition json_headers : list (string * string) :=
  [("Accept", "application/json;encoding=utf-8");
   ("Content-Type", "application/json;encoding=utf-8")]%string.

(** The request built for one code by the primary screen. *)
Definition code_request (API_URL : string) (code : ScannedCode) : Request :=
  mkRequest (API_URL ++ "/codigos") "POST" json_headers
            (JObj [("data", JStr (data code)); ("type", JStr (type code));
                   ("timestamp", JNum (timestamp code))]%string).

(** [syncWithServer] of the primary screen; [isLocalMode] and [API_URL] are
    the module constants of the file, [now] is the time of the call. *)
Definition syncWithServer (isLocalMode : bool) (API_URL : string) (now : Z) : M unit :=
  w <- get;;
  let codes := scannedCodes (ui w) in
  match codes with
  | [] => alert "Sincronización" "No hay códigos para sincronizar"
  | _ :: _ =>
      _ <- setIsSyncing true;;
      _ <- try_catch
             (if isLocalMode then setTimeout now 500 (TLocalModeNotice (length codes))
              else
                _ <- forM_ (fun code => fetch (code_request API_URL code)) codes;;
                alert "Sincronización Exitosa"
                  ("Se han sincronizado " ++ string_of_nat (length codes)
                   ++ " códigos con el servidor"))
             (fun error =>
                _ <- log ("Error al sincronizar: " ++ error);;
                alert "Error de Sincronización"
                  "No se pudieron sincronizar los códigos. Verifica tu conexión.");;
      if negb isLocalMode then setIsSyncing false else ret tt
  end.

(** The request built for one code by the alternate screen further down
    src/unnamed/part_000: its body has no [timestamp]. *)
Definition code_request_alt (API_URL : string) (code : ScannedCode) : Request :=
  mkRequest (API_URL ++ "/codigos") "POST" json_headers
            (JObj [("data", JStr (data code)); ("type", JStr (type code))]%string).

(** [syncWithServer] of the alternate screen. *)
Definition syncWithServer_alt (isLocalMode : bool) (API_URL : string) (now : Z) : M unit :=
  w <- get;;
  let codes := scannedCodes (ui w) in
  match codes with
  | [] => alert "Sincronización" "No hay códigos para sincronizar"
  | _ :: _ =>
      _ <- setIsSyncing true;;
      _ <- try_catch
             (if isLocalMode then setTimeout now 500 TLocalModeNoticeAlt
              else
                _ <- forM_ (fun code => fetch (code_request_alt API_URL code)) codes;;
                alert "Sincronización Exitosa"
                  ("Se han sincronizado " ++ string_of_nat (length codes)
                   ++ " códigos con el servidor"))
             (fun error =>
                _ <- log ("Error al sincronizar: " ++ error);;
                alert "Error de Sincronización"
                  "No se pudieron sincronizar los códigos. Verifica tu conexión.");;
      if negb isLocalMode then setIsSyncing false else ret tt
  end.

(** Configuration of the primary screen. *)
Definition isLocalMode : bool := true.
Definition API_URL : string := "http://localhost:3000".

(** A freshly mounted screen: refs initialised, no timer, empty lists. *)
Definition initial_world (dbok : bool) (s : list ScannedCode)
    (dbF netF : list bool) : World :=
  mkWorld (mkRefs EmptyString 0 false) [] None
          (mkBackend dbok s (length s) dbF 0 netF [])
          (mkUi s (computeStats s) false [] [] []).

(** Predicates on event traces used by the statements below. *)

(** A scan of payload [p] whose timestamp is less than [SCAN_COOLDOWN] after
    [t0]; other events are unconstrained. *)
Definition same_payload_within (p : string) (t0 : Z) (e : Event) : Prop :=
  match e with
  | Scan d _ t => d = p /\ (t - t0 < SCAN_COOLDOWN)%Z
  | _ => True
  end.

Definition not_tick (e : Event) : Prop :=
  match e with Tick _ => False | _ => True end.

Definition not_settle (e : Event) : Prop :=
  match e with Settle _ => False | _ => True end.

Definition is_release (e : Z * Timer) : bool :=
  match snd e with TRelease => true | _ => false end.

(** No release of the processing flag is pending. *)
Definition no_release (ts : list (Z * Timer)) : bool :=
  forallb (fun e => negb (is_release e)) ts.

(** ** Frame lemmas: what a computation leaves untouched *)

Definition keeps {X A} (f : World -> X) (m : M A) : Prop :=
  forall w, f (snd (m w)) = f w.

Lemma keeps_ret {X A} (f : World -> X) (a : A) : keeps f (ret a).
Proof. intros w; reflexivity. Qed.

Lemma keeps_get {X} (f : World -> X) : keeps f get.
Proof. intros w; reflexivity. Qed.

Lemma keeps_bind {X A B} (f : World -> X) (m : M A) (k : A -> M B) :
  keeps f m -> (forall a, keeps f (k a)) -> keeps f (bind m k).
Proof.
  intros Hm Hk w; unfold bind; specialize (Hm w).
  destruct (m w) as [[a|e] w']; simpl in *; [rewrite Hk|]; exact Hm.
Qed.

Lemma keeps_try {X A} (f : World -> X) (m : M A) (h : string -> M A) :
  keeps f m -> (forall e, keeps f (h e)) -> keeps f (try_catch m h).
Proof.
  intros Hm Hh w; unfold try_catch; specialize (Hm w).
  destruct (m w) as [[a|e] w']; simpl in *; [|rewrite Hh]; exact Hm.
Qed.

Lemma keeps_modify {X} (f : World -> X) (g : World -> World) :
  (forall w, f (g w) = f w) -> keeps f (modify g).
Proof. intros H w; apply H. Qed.

Lemma keeps_upd_ui {X} (f : World -> X) (g : Ui -> Ui) :
  (forall u w, f (with_ui u w) = f w) -> keeps f (upd_ui g).
Proof. intros H w; apply H. Qed.

Lemma keeps_setTimeout {X} (f : World -> X) now d t :
  (forall ts w, f (with_timers ts w) = f w) -> keeps f (setTimeout now d t).
Proof. intros H w; apply H. Qed.

Lemma keeps_db_call {X A} (f : World -> X) (op : Backend -> A * Backend) :
  (forall b w, f (with_backend b w) = f w) -> keeps f (db_call op).
Proof.
  intros H w; unfold db_call.
  destruct (dbFaults (backend w)) as [|[|] fs];
    try (destruct (op _)); simpl; apply H.
Qed.

Lemma keeps_fetch {X} (f : World -> X) r :
  (forall b w, f (with_backend b w) = f w) -> keeps f (fetch r).
Proof.
  intros H w; unfold fetch.
  destruct (netFaults (backend w)) as [|[|] fs]; simpl; apply H.
Qed.

Lemma keeps_forM_ {X A} (f : World -> X) (g : A -> M unit) l :
  (forall a, keeps f (g a)) -> keeps f (forM_ g l).
Proof.
  intros H; induction l as [|a l IH]; simpl.
  - apply keeps_ret.
  - apply keeps_bind; [apply H | intros; apply IH].
Qed.

Ltac keeps_tac :=
  repeat (first
    [ reflexivity
    | match goal with
      | |- keeps _ (if ?b then _ else _) => destruct b
      | |- keeps _ (match ?t with _ => _ end) => destruct t
      | |- keeps _ (ret _) => apply keeps_ret
      | |- keeps _ get => apply keeps_get
      | |- keeps _ (bind _ _) => apply keeps_bind
      | |- keeps _ (try_catch _ _) => apply keeps_try
      | |- keeps _ (modify _) => apply keeps_modify
      | |- keeps _ (upd_ui _) => apply keeps_upd_ui
      | |- keeps _ (setTimeout _ _ _) => apply keeps_setTimeout
      | |- keeps _ (db_call _) => apply keeps_db_call
      | |- keeps _ (fetch _) => apply keeps_fetch
      | |- keeps _ (forM_ _ _) => apply keeps_forM_
      end
    | progress unfold log, alert, showNotification, setScannedCodes, setStats,
        setIsSyncing, existeCodigo, insertarCodigo, consultarCodigos,
        obtenerEstadisticas, eliminarCodigo, limpiarCodigos, updateData
    | lazymatch goal with |- keeps _ _ => fail | _ => intro end ]).

(** The two components of the refs the cooldown guard reads. *)
Definition last_accepted (w : World) : string * Z :=
  (lastScannedCode (refs w), lastScannedTime (refs w)).

Lemma body_keeps_refs d ty now : keeps refs (onBarcodeScanned_body d ty now).
Proof. unfold onBarcodeScanned_body, onBarcodeScanned_try; keeps_tac. Qed.

Lemma run_timer_keeps_last t : keeps last_accepted (run_timer t).
Proof. destruct t; unfold run_timer; keeps_tac. Qed.

Lemma fold_timers_keeps {X} (f : World -> X) :
  (forall t, keeps f (run_timer t)) ->
  forall (l : list (Z * Timer)) w,
    f (fold_left (fun w' e => snd (run_timer (snd e) w')) l w) = f w.
Proof.
  intros H l; induction l as [|e l IH]; intros w; simpl; [reflexivity|].
  rewrite IH; apply H.
Qed.

Lemma fire_timers_keeps {X} (f : World -> X) :
  (forall t, keeps f (run_timer t)) ->
  (forall ts w, f (with_timers ts w) = f w) ->
  forall now w, f (fire_timers now w) = f w.
Proof.
  intros H1 H2 now w; unfold fire_timers.
  rewrite fold_timers_keeps by exact H1; apply H2.
Qed.

Lemma log_world msg w :
  snd (log msg w) =
  with_ui (mkUi (scannedCodes (ui w)) (stats (ui w)) (isSyncing (ui w))
                (alerts (ui w)) (notifications (ui w)) (logs (ui w) ++ [msg])) w.
Proof. reflexivity. Qed.

(** A scan of the last accepted payload within the cooldown is never
    accepted; the refs the guard reads stay as they were. *)
Lemma scan_within_cooldown_rejected p t0 d ty t w dec w' :
  last_accepted w = (p, t0) -> d = p -> (t - t0 < SCAN_COOLDOWN)%Z ->
  onBarcodeScanned d ty t w = (dec, w') ->
  dec = (if isProcessing (refs w) then RejectBusy else RejectDuplicate)
  /\ w' = snd (log (if isProcessing (refs w) then "Escaneo ignorado: ya procesando"
                   else "scaneo ignorado: mismo código muy reciente") w).
Proof.
  unfold last_accepted; intros Hl -> Ht H.
  injection Hl as Hc Htm.
  unfold onBarcodeScanned in H.
  destruct (isProcessing (refs w)).
  - injection H as <- <-; auto.
  - rewrite Hc, Htm, String.eqb_refl in H; simpl in H.
    apply Z.ltb_lt in Ht; rewrite Ht in H.
    injection H as <- <-; auto.
Qed.

Lemma step_keeps_last_no_accept p t0 e w :
  last_accepted w = (p, t0) -> same_payload_within p t0 e ->
  fst (step e w) <> Some Accept /\ last_accepted (snd (step e w)) = (p, t0).
Proof.
  intros Hl He; destruct e as [d ty t|now|now]; simpl in *.
  - destruct He as [Hd Ht].
    destruct (onBarcodeScanned d ty t w) as [dec w'] eqn:E.
    destruct (scan_within_cooldown_rejected p t0 d ty t w dec w' Hl Hd Ht E)
      as [-> ->]; simpl.
    split; [destruct (isProcessing (refs w)); discriminate|].
    destruct (isProcessing (refs w)); exact Hl.
  - destruct (inflight w) as [[d ty]|]; simpl; split; try discriminate; auto.
    unfold last_accepted; rewrite body_keeps_refs; exact Hl.
  - split; [discriminate|].
    rewrite fire_timers_keeps; [exact Hl| apply run_timer_keeps_last |].
    intros; reflexivity.
Qed.

Lemma run_no_accept p t0 evs :
  forall w, last_accepted w = (p, t0) -> Forall (same_payload_within p t0) evs ->
  ~ In Accept (fst (run evs w)) /\ last_accepted (snd (run evs w)) = (p, t0).
Proof.
  induction evs as [|e evs IH]; intros w Hl Hf; simpl; [auto|].
  inversion Hf as [|? ? He Hf']; subst.
  destruct (step_keeps_last_no_accept p t0 e w Hl He) as [Hn Hl1].
  destruct (step e w) as [o w1] eqn:E; simpl in *.
  destruct (IH w1 Hl1 Hf') as [IHn IHl].
  destruct (run evs w1) as [ds w2]; simpl in *.
  split; [|exact IHl].
  destruct o as [d|]; simpl; [|exact IHn].
  intros [Hd|Hd]; [subst; congruence | contradiction].
Qed.

Lemma accept_world d ty t w w1 :
  onBarcodeScanned d ty t w = (Accept, w1) ->
  isProcessing (refs w) = false /\
  w1 = with_inflight (Some (d, ty))
         (snd (log ("Procesando escaneo: " ++ d)
                   (with_refs (mkRefs d t true) w))).
Proof.
  unfold onBarcodeScanned; intros H.
  destruct (isProcessing (refs w)); [discriminate|].
  destruct (_ && _); [discriminate|].
  injection H as <-; auto.
Qed.

Lemma step_busy e w :
  isProcessing (refs w) = true -> not_tick e ->
  isProcessing (refs (snd (step e w))) = true /\
  (forall d, fst (step e w) = Some d -> d = RejectBusy).
Proof.
  intros Hp He; destruct e as [d ty t|now|now]; simpl in *.
  - unfold onBarcodeScanned; rewrite Hp; simpl.
    split; [exact Hp|]. intros d' Hd; congruence.
  - destruct (inflight w) as [[d ty]|]; simpl.
    + rewrite body_keeps_refs; split; [exact Hp|discriminate].
    + split; [exact Hp|discriminate].
  - contradiction.
Qed.

(** ** C1: same payload within the cooldown is accepted once *)

(** C1: once a scan of payload [p] at time [t0] is accepted, the refs hold
    [p] and [t0] as the last accepted pair, and no later scan of [p] whose
    timestamp is less than [SCAN_COOLDOWN] (3000 ms) after [t0] is ever
    accepted, whatever settling of the accepted work and whatever timer
    firings are interleaved: every such scan is RejectDuplicate or
    RejectBusy. *)
Theorem C1_first_accept_only w p ty t0 w1 :
  onBarcodeScanned p ty t0 w = (Accept, w1) ->
  lastScannedCode (refs w1) = p /\ lastScannedTime (refs w1) = t0 /\
  isProcessing (refs w1) = true /\
  (forall evs, Forall (same_payload_within p t0) evs ->
   ~ In Accept (fst (run evs w1)) /\
   Forall (fun d => d = RejectDuplicate \/ d = RejectBusy) (fst (run evs w1))).
Proof.
  intros H; destruct (accept_world _ _ _ _ _ H) as [_ ->]; simpl.
  split; [reflexivity|]; split; [reflexivity|]; split; [reflexivity|].
  intros evs Hf.
  destruct (run_no_accept p t0 evs
              (with_inflight (Some (p, ty))
                 (snd (log ("Procesando escaneo: " ++ p)
                           (with_refs (mkRefs p t0 true) w)))) eq_refl Hf) as [Hn _].
  split; [exact Hn|].
  apply Forall_forall; intros [] Hin; auto; contradiction.
Qed.

Definition fresh_world : World := initial_world true [] [] [].

Lemma C1_witness :
  onBarcodeScanned "ABC123" "qr" 0 fresh_world
    = (Accept, snd (onBarcodeScanned "ABC123" "qr" 0 fresh_world)) /\
  ~ In Accept (fst (run [Scan "ABC123" "qr" 10; Settle 20; Tick 1020;
                         Scan "ABC123" "qr" 2500]
                        (snd (onBarcodeScanned "ABC123" "qr" 0 fresh_world)))).
Proof.
  split; [reflexivity|].
  refine (proj1 (proj2 (proj2 (proj2
            (C1_first_accept_only fresh_world "ABC123" "qr" 0
               (snd (onBarcodeScanned "ABC123" "qr" 0 fresh_world)) eq_refl)))
            _ _)).
  unfold same_payload_within, SCAN_COOLDOWN; repeat constructor; lia.
Defined.

(** ** C2: while processing, every scan is RejectBusy *)

(** C2: while the processing flag is set, a scan is RejectBusy whatever its
    payload and timestamp (the cooldown guard is not consulted: the result
    does not depend on the last accepted pair, and only a log line is
    written); and along any sequence of scans and settlings (no timer fires,
    so the flag stays set) every scan is RejectBusy. *)
Theorem C2_busy_rejects_all w :
  isProcessing (refs w) = true ->
  (forall d ty t,
     onBarcodeScanned d ty t w
       = (RejectBusy, snd (log "Escaneo ignorado: ya procesando" w))) /\
  (forall evs, Forall not_tick evs ->
     Forall (fun d => d = RejectBusy) (fst (run evs w)) /\
     isProcessing (refs (snd (run evs w))) = true).
Proof.
  intros Hp; split.
  - intros d ty t; unfold onBarcodeScanned; rewrite Hp; reflexivity.
  - intros evs; revert w Hp; induction evs as [|e evs IH]; intros w Hp Hf;
      simpl; [auto|].
    inversion Hf as [|? ? He Hf']; subst.
    destruct (step_busy e w Hp He) as [Hp1 Hd].
    destruct (step e w) as [o w1]; simpl in *.
    destruct (IH w1 Hp1 Hf') as [IHd IHp].
    destruct (run evs w1) as [ds w2]; simpl in *.
    split; [|exact IHp].
    destruct o as [d|]; [constructor; [apply Hd|]|]; auto.
Qed.

Definition busy_world : World := snd (onBarcodeScanned "ABC123" "qr" 0 fresh_world).

Lemma C2_witness :
  isProcessing (refs busy_world) = true /\
  Forall (fun d => d = RejectBusy)
    (fst (run [Scan "XYZ" "code128" 5; Scan "ABC123" "qr" 9000; Settle 10;
               Scan "other" "qr" (-7)] busy_world)).
Proof.
  split; [reflexivity|].
  refine (proj1 (proj2 (C2_busy_rejects_all busy_world eq_refl) _ _)).
  unfold not_tick; repeat constructor.
Defined.

(** ** C10: a rejected scan has no effect besides its log line *)

Lemma reject_frame d ty t w dec w' :
  onBarcodeScanned d ty t w = (dec, w') -> dec <> Accept ->
  refs w' = refs w /\ timers w' = timers w /\ inflight w' = inflight w /\
  backend w' = backend w /\
  scannedCodes (ui w') = scannedCodes (ui w) /\ stats (ui w') = stats (ui w) /\
  isSyncing (ui w') = isSyncing (ui w) /\ alerts (ui w') = alerts (ui w) /\
  notifications (ui w') = notifications (ui w) /\
  (exists msg, logs (ui w') = logs (ui w) ++ [msg]).
Proof.
  unfold onBarcodeScanned; intros H Hd.
  destruct (isProcessing (refs w));
    [|destruct (_ && _)]; injection H as <- <-; try congruence;
    simpl; repeat split; eexists; reflexivity.
Qed.

(** C10: when [onBarcodeScanned] rejects a scan (busy or duplicate) it
    returns at once: the refs, the pending timers and work, the database
    (store included), the displayed list and statistics, the syncing flag,
    the alerts and the notifications are all unchanged; the only trace is
    one console log line. *)
Theorem C10_reject_frame d ty t w dec w' :
  onBarcodeScanned d ty t w = (dec, w') -> dec <> Accept ->
  refs w' = refs w /\ timers w' = timers w /\ inflight w' = inflight w /\
  backend w' = backend w /\
  scannedCodes (ui w') = scannedCodes (ui w) /\ stats (ui w') = stats (ui w) /\
  isSyncing (ui w') = isSyncing (ui w) /\ alerts (ui w') = alerts (ui w) /\
  notifications (ui w') = notifications (ui w) /\
  (exists msg, logs (ui w') = logs (ui w) ++ [msg]).
Proof. apply reject_frame. Qed.

Lemma C10_witness :
  onBarcodeScanned "ABC123" "qr" 100 busy_world
    = (RejectBusy, snd (onBarcodeScanned "ABC123" "qr" 100 busy_world)) /\
  backend (snd (onBarcodeScanned "ABC123" "qr" 100 busy_world)) = backend busy_world.
Proof.
  split; [reflexivity|].
  refine (proj1 (proj2 (proj2 (proj2
            (C10_reject_frame "ABC123" "qr" 100 busy_world RejectBusy _ eq_refl _))))).
  discriminate.
Defined.

(** ** Timers and the settling of accepted work *)

Lemma run_cons e evs w :
  fst (run (e :: evs) w)
  = (match fst (step e w) with Some d => [d] | None => [] end)
    ++ fst (run evs (snd (step e w))).
Proof.
  simpl; destruct (step e w) as [o w1]; simpl; destruct (run evs w1) as [ds w2].
  destruct o; reflexivity.
Qed.

Lemma run_snd_cons e evs w :
  snd (run (e :: evs) w) = snd (run evs (snd (step e w))).
Proof.
  simpl; destruct (step e w) as [o w1]; simpl; destruct (run evs w1); reflexivity.
Qed.

Lemma run_timer_processing t w :
  isProcessing (refs (snd (run_timer t w)))
  = match t with TRelease => false | _ => isProcessing (refs w) end.
Proof. destruct t; reflexivity. Qed.

Lemma run_timer_keeps_timers t : keeps timers (run_timer t).
Proof. destruct t; unfold run_timer; keeps_tac. Qed.

Lemma run_timer_keeps_inflight t : keeps inflight (run_timer t).
Proof. destruct t; unfold run_timer; keeps_tac. Qed.

Lemma run_timer_keeps_backend t : keeps backend (run_timer t).
Proof. destruct t; unfold run_timer; keeps_tac. Qed.

Lemma fold_timers_processing (l : list (Z * Timer)) :
  forall w,
  isProcessing (refs (fold_left (fun w' e => snd (run_timer (snd e) w')) l w))
  = if existsb is_release l then false else isProcessing (refs w).
Proof.
  induction l as [|[d t] l IH]; intros w; [reflexivity|].
  cbn [fold_left existsb]; rewrite IH, run_timer_processing.
  destruct t; cbn [is_release snd orb]; destruct (existsb is_release l); reflexivity.
Qed.

Lemma fire_timers_processing now w :
  isProcessing (refs (fire_timers now w))
  = if existsb is_release (filter (is_due now) (timers w)) then false
    else isProcessing (refs w).
Proof. unfold fire_timers; rewrite fold_timers_processing; reflexivity. Qed.

Lemma fire_timers_timers now w :
  timers (fire_timers now w) = filter (fun e => negb (is_due now e)) (timers w).
Proof.
  unfold fire_timers; rewrite fold_timers_keeps by apply run_timer_keeps_timers.
  reflexivity.
Qed.

Lemma no_release_filter q l :
  no_release l = true -> no_release (filter q l) = true.
Proof.
  unfold no_release; rewrite !forallb_forall; intros H x Hx.
  apply filter_In in Hx; apply H, Hx.
Qed.

Lemma no_release_existsb q l :
  no_release l = true -> existsb is_release (filter q l) = false.
Proof.
  intros H; apply (no_release_filter q) in H; revert H.
  unfold no_release; induction (filter q l) as [|x l' IH]; simpl; [auto|].
  intros H; apply andb_true_iff in H as [H1 H2].
  destruct (is_release x); [discriminate|apply IH, H2].
Qed.

Lemma try_ok d ty now w : fst (onBarcodeScanned_try d ty now w) = Ok tt.
Proof.
  unfold onBarcodeScanned_try, try_catch.
  lazymatch goal with
  | |- fst (match ?x with _ => _ end) = _ => destruct x as [[[]|e] w']
  end; reflexivity.
Qed.

Lemma try_keeps_timers d ty now : keeps timers (onBarcodeScanned_try d ty now).
Proof. unfold onBarcodeScanned_try; keeps_tac. Qed.

Lemma try_keeps_inflight d ty now : keeps inflight (onBarcodeScanned_try d ty now).
Proof. unfold onBarcodeScanned_try; keeps_tac. Qed.

Lemma body_timers d ty now w :
  timers (snd (onBarcodeScanned_body d ty now w))
  = timers w ++ [((now + PROCESSING_TIMEOUT)%Z, TRelease)].
Proof.
  unfold onBarcodeScanned_body, bind.
  pose proof (try_ok d ty now w) as Hok.
  pose proof (try_keeps_timers d ty now w) as Ht.
  destruct (onBarcodeScanned_try d ty now w) as [r w']; simpl in *; subst.
  simpl; rewrite Ht; reflexivity.
Qed.

Lemma body_keeps_inflight d ty now : keeps inflight (onBarcodeScanned_body d ty now).
Proof. unfold onBarcodeScanned_body, onBarcodeScanned_try; keeps_tac. Qed.

Lemma step_pending e w :
  isProcessing (refs w) = true -> no_release (timers w) = true -> not_settle e ->
  isProcessing (refs (snd (step e w))) = true /\
  no_release (timers (snd (step e w))) = true /\
  (forall d, fst (step e w) = Some d -> d = RejectBusy).
Proof.
  intros Hp Hn He; destruct e as [d ty t|now|now]; simpl in *.
  - unfold onBarcodeScanned; rewrite Hp; simpl.
    repeat split; [exact Hp|exact Hn|]. intros d' Hd; congruence.
  - contradiction.
  - rewrite fire_timers_processing, fire_timers_timers, no_release_existsb by exact Hn.
    repeat split; [exact Hp| apply no_release_filter, Hn |discriminate].
Qed.

Lemma run_pending evs :
  forall w, isProcessing (refs w) = true -> no_release (timers w) = true ->
  Forall not_settle evs ->
  isProcessing (refs (snd (run evs w))) = true /\
  Forall (fun d => d = RejectBusy) (fst (run evs w)).
Proof.
  induction evs as [|e evs IH]; intros w Hp Hn Hf; simpl; [auto|].
  inversion Hf as [|? ? He Hf']; subst.
  destruct (step_pending e w Hp Hn He) as [Hp1 [Hn1 Hd]].
  destruct (step e w) as [o w1]; simpl in *.
  destruct (IH w1 Hp1 Hn1 Hf') as [A B].
  destruct (run evs w1) as [ds w2]; simpl in *.
  split; [exact A|].
  destruct o as [d|]; [constructor; [apply Hd; reflexivity|]|]; auto.
Qed.

Lemma settle_world w p ty X :
  w = with_inflight (Some (p, ty)) X -> forall tw,
  step (Settle tw) w = (None, snd (onBarcodeScanned_body p ty tw (with_inflight None w))).
Proof. intros -> tw; reflexivity. Qed.

(** ** C3: when the processing flag is released *)

(** C3 (amended): the release of the processing flag is scheduled in the
    [finally] of the handler, [PROCESSING_TIMEOUT] (1000 ms) after the
    accepted scan's work (existence check, notification, insert, refresh)
    has settled, successfully or not.  (a) As long as that work has not
    settled, the flag stays set whatever time passes, and every scan is
    RejectBusy (assuming no release was already pending when the scan was
    accepted, which holds in every reachable state, see
    [reachable_release_invariant]).  (b) Once the work settles at [tw] and
    the clock reaches [tw + PROCESSING_TIMEOUT], a scan of the same payload
    at least [SCAN_COOLDOWN] after the acceptance is accepted. *)
Theorem C3_release_after_settle w p ty t0 w1 :
  onBarcodeScanned p ty t0 w = (Accept, w1) ->
  no_release (timers w) = true ->
  (forall evs, Forall not_settle evs ->
     isProcessing (refs (snd (run evs w1))) = true /\
     Forall (fun d => d = RejectBusy) (fst (run evs w1))) /\
  (forall tw tt t ty', (tw + PROCESSING_TIMEOUT <= tt)%Z ->
     (t0 + SCAN_COOLDOWN <= t)%Z ->
     fst (run [Settle tw; Tick tt; Scan p ty' t] w1) = [Accept]).
Proof.
  intros H Hn.
  destruct (accept_world _ _ _ _ _ H) as [_ Hw1].
  assert (Hp1 : isProcessing (refs w1) = true) by (subst w1; reflexivity).
  assert (Hn1 : no_release (timers w1) = true) by (subst w1; exact Hn).
  split.
  - intros evs Hf; exact (run_pending evs w1 Hp1 Hn1 Hf).
  - intros tw tt t ty' Htt Ht.
    rewrite run_cons, (settle_world _ _ _ _ Hw1 tw); cbn [fst snd app].
    set (w2 := snd (onBarcodeScanned_body p ty tw (with_inflight None w1))).
    assert (Hr2 : refs w2 = mkRefs p t0 true)
      by (unfold w2; rewrite body_keeps_refs; subst w1; reflexivity).
    assert (Ht2 : timers w2 = timers w1 ++ [((tw + PROCESSING_TIMEOUT)%Z, TRelease)])
      by (unfold w2; rewrite body_timers; reflexivity).
    rewrite run_cons; change (step (Tick tt) w2) with (@None Decision, fire_timers tt w2).
    cbn [fst snd app].
    set (w3 := fire_timers tt w2).
    assert (Hp3 : isProcessing (refs w3) = false).
    { unfold w3; rewrite fire_timers_processing, Ht2, filter_app, existsb_app.
      simpl.
      assert (Hd : is_due tt ((tw + PROCESSING_TIMEOUT)%Z, TRelease) = true)
        by (apply Z.leb_le; exact Htt).
      rewrite Hd; simpl; rewrite orb_true_r; reflexivity. }
    assert (Hl3 : last_accepted w3 = (p, t0)).
    { unfold w3; rewrite fire_timers_keeps;
        [unfold last_accepted; rewrite Hr2; reflexivity
        | apply run_timer_keeps_last | intros; reflexivity]. }
    unfold last_accepted in Hl3; injection Hl3 as Hc Htm.
    rewrite run_cons; unfold step.
    unfold onBarcodeScanned; rewrite Hp3, Hc, Htm, String.eqb_refl.
    assert (Hlt : (t - t0 <? SCAN_COOLDOWN)%Z = false) by (apply Z.ltb_ge; lia).
    rewrite Hlt; reflexivity.
Qed.

(** ** The release timer in reachable states *)

Definition count_release (l : list (Z * Timer)) : nat := length (filter is_release l).

(** Invariant of the scanner's refs and timers: when the flag is clear no
    release is pending and no work is in flight; while work is in flight the
    flag is set and no release is pending; at most one release is pending. *)
Definition release_inv (w : World) : Prop :=
  (isProcessing (refs w) = false -> count_release (timers w) = 0 /\ inflight w = None) /\
  (inflight w <> None -> isProcessing (refs w) = true /\ count_release (timers w) = 0) /\
  (count_release (timers w) <= 1)%nat.

Lemma no_release_count l : no_release l = true <-> count_release l = 0%nat.
Proof.
  unfold no_release, count_release; induction l as [|x l IH]; simpl; [tauto|].
  destruct (is_release x); simpl; [split; discriminate|exact IH].
Qed.

Lemma count_release_split q l :
  (count_release (filter q l) + count_release (filter (fun e => negb (q e)) l)
   = count_release l)%nat.
Proof.
  unfold count_release; induction l as [|x l IH]; simpl; [reflexivity|].
  destruct (q x), (is_release x) eqn:E; simpl; rewrite ?E; simpl; lia.
Qed.

Lemma existsb_count l : existsb is_release l = true -> (1 <= count_release l)%nat.
Proof.
  unfold count_release; induction l as [|x l IH]; simpl; [discriminate|].
  destruct (is_release x); simpl; [lia|exact IH].
Qed.

Lemma count_release_app l1 l2 :
  count_release (l1 ++ l2) = (count_release l1 + count_release l2)%nat.
Proof. unfold count_release; rewrite filter_app, length_app; reflexivity. Qed.

Lemma step_release_inv e w : release_inv w -> release_inv (snd (step e w)).
Proof.
  intros [I1 [I2 I3]]; destruct e as [d ty t|now|now]; simpl.
  - destruct (onBarcodeScanned d ty t w) as [dec w'] eqn:E; simpl.
    destruct dec.
    + destruct (accept_world _ _ _ _ _ E) as [Hp ->].
      destruct (I1 Hp) as [Hc Hi].
      unfold release_inv; simpl; repeat split; try discriminate; auto; lia.
    + destruct (reject_frame _ _ _ _ _ _ E ltac:(discriminate))
        as [Hr [Ht [Hi _]]].
      unfold release_inv; rewrite Hr, Ht, Hi; auto.
    + destruct (reject_frame _ _ _ _ _ _ E ltac:(discriminate))
        as [Hr [Ht [Hi _]]].
      unfold release_inv; rewrite Hr, Ht, Hi; auto.
  - destruct (inflight w) as [[d ty]|] eqn:Ei; simpl;
      [|unfold release_inv; rewrite Ei; auto].
    destruct (I2 ltac:(discriminate)) as [Hp Hc].
    unfold release_inv.
    rewrite body_keeps_refs, body_timers, body_keeps_inflight; simpl.
    rewrite count_release_app, Hc.
    repeat split; try congruence;
      first [exact Hc | unfold count_release; simpl; lia].
  - unfold release_inv.
    rewrite fire_timers_processing, fire_timers_timers.
    rewrite fire_timers_keeps with (f := inflight);
      [| apply run_timer_keeps_inflight | intros; reflexivity].
    pose proof (count_release_split (is_due now) (timers w)) as Hs.
    destruct (existsb is_release (filter (is_due now) (timers w))) eqn:Ex.
    + apply existsb_count in Ex.
      split; [|split].
      * intros _; split; [lia|].
        destruct (inflight w) eqn:Hi; [|reflexivity].
        destruct (I2 ltac:(congruence)) as [_ Hc]; lia.
      * intros Hi; destruct (I2 Hi) as [_ Hc]; lia.
      * lia.
    + split; [|split].
      * intros Hp; destruct (I1 Hp) as [Hc Hi]; split; [lia|exact Hi].
      * intros Hi; destruct (I2 Hi) as [Hp Hc]; split; [exact Hp|lia].
      * lia.
Qed.

Lemma run_release_inv evs : forall w, release_inv w -> release_inv (snd (run evs w)).
Proof.
  induction evs as [|e evs IH]; intros w H; [exact H|].
  rewrite run_snd_cons; apply IH, step_release_inv, H.
Qed.

(** In every state reached from a freshly mounted screen, a clear
    processing flag means that no release is pending. *)
Lemma reachable_release_invariant dbok s dbF netF evs :
  let w := snd (run evs (initial_world dbok s dbF netF)) in
  isProcessing (refs w) = false -> no_release (timers w) = true.
Proof.
  intros w Hp; apply no_release_count.
  assert (H : release_inv w)
    by (apply run_release_inv; unfold release_inv; simpl; repeat split; auto; congruence).
  destruct H as [H _]; apply H, Hp.
Qed.

Lemma C3_witness :
  onBarcodeScanned "ABC123" "qr" 0 fresh_world = (Accept, busy_world) /\
  no_release (timers fresh_world) = true /\
  fst (run [Settle 200; Tick 1200; Scan "ABC123" "qr" 3000] busy_world) = [Accept].
Proof.
  split; [reflexivity|]; split; [reflexivity|].
  apply (proj2 (C3_release_after_settle fresh_world "ABC123" "qr" 0 busy_world
                  eq_refl eq_refl));
    unfold PROCESSING_TIMEOUT, SCAN_COOLDOWN; lia.
Defined.

(** C3, as stated, fails: a scan of "ABC123" is accepted at 0 ms; its work
    has not settled (the database call is still pending) when the clock
    reaches 1000 ms and 5000 ms.  The flag is still set at 5000 ms, and a
    new scan of the same payload at 5000 ms, past both the processing
    timeout and the cooldown, is RejectBusy, not Accept. *)
Lemma C3_counterexample :
  isProcessing (refs (snd (run [Scan "ABC123" "qr" 0; Tick 1000; Tick 5000]
                               fresh_world))) = true /\
  fst (run [Scan "ABC123" "qr" 0; Tick 1000; Tick 5000; Scan "ABC123" "qr" 5000]
           fresh_world) = [Accept; RejectBusy].
Proof. split; vm_compute; reflexivity. Qed.

(** ** Persistence failures and the deduplication refs *)

(** The persistence of an accepted scan cannot complete: no database
    connection, the existence check rejects, or the existence check succeeds
    and the next call (the insert, when it is reached) rejects. *)
Definition persistence_fails (b : Backend) : Prop :=
  db b = false \/ (exists fs, dbFaults b = true :: fs) \/
  (exists fs, dbFaults b = false :: true :: fs).

Lemma body_store_fail d ty now w :
  persistence_fails (backend w) ->
  store (backend (snd (onBarcodeScanned_body d ty now w))) = store (backend w).
Proof.
  destruct w as [r ts inf [dbb st nid dbF dbC nF rq] u]; unfold persistence_fails;
    simpl; intros [->|[[fs ->]|[fs ->]]]; [|destruct dbb..];
    unfold onBarcodeScanned_body, onBarcodeScanned_try; cbv -[existsb];
    try reflexivity.
  match goal with |- context [existsb ?f st] => destruct (existsb f st) end;
    reflexivity.
Qed.

Lemma step_keeps_backend p t0 e w :
  last_accepted w = (p, t0) -> inflight w = None -> same_payload_within p t0 e ->
  backend (snd (step e w)) = backend w /\ inflight (snd (step e w)) = None.
Proof.
  intros Hl Hi He; destruct e as [d ty t|now|now]; simpl in *.
  - destruct He as [Hd Ht].
    destruct (onBarcodeScanned d ty t w) as [dec w'] eqn:E.
    destruct (scan_within_cooldown_rejected p t0 d ty t w dec w' Hl Hd Ht E)
      as [_ ->]; simpl.
    destruct (isProcessing (refs w)); split; auto.
  - rewrite Hi; auto.
  - split.
    + apply fire_timers_keeps; [apply run_timer_keeps_backend | intros; reflexivity].
    + rewrite fire_timers_keeps; [exact Hi | apply run_timer_keeps_inflight
                                 | intros; reflexivity].
Qed.

Lemma run_keeps_backend p t0 evs :
  forall w, last_accepted w = (p, t0) -> inflight w = None ->
  Forall (same_payload_within p t0) evs ->
  backend (snd (run evs w)) = backend w /\ last_accepted (snd (run evs w)) = (p, t0).
Proof.
  induction evs as [|e evs IH]; intros w Hl Hi Hf; [auto|].
  inversion Hf as [|? ? He Hf']; subst.
  rewrite run_snd_cons.
  destruct (step_keeps_backend p t0 e w Hl Hi He) as [Hb Hi1].
  destruct (step_keeps_last_no_accept p t0 e w Hl He) as [_ Hl1].
  destruct (IH _ Hl1 Hi1 Hf') as [Hb2 Hl2].
  rewrite Hb2, Hb; auto.
Qed.

(** C9: the refs are written when the scan is accepted, before any
    persistence is attempted.  When persistence then fails (no database
    connection, or a rejected existence check or insert), the store is left
    as it was, yet the refs hold the accepted payload and time; from then
    on, along any sequence of events whose scans carry that payload within
    the cooldown, no scan is accepted, the store stays unchanged, and a
    repeat within the cooldown is RejectDuplicate once the flag has been
    released (RejectBusy before). *)
Theorem C9_dedup_before_persist w p ty t0 w1 tw :
  onBarcodeScanned p ty t0 w = (Accept, w1) ->
  persistence_fails (backend w) ->
  let w2 := snd (step (Settle tw) w1) in
  store (backend w2) = store (backend w) /\ last_accepted w2 = (p, t0) /\
  (forall evs, Forall (same_payload_within p t0) evs ->
   let w3 := snd (run evs w2) in
   ~ In Accept (fst (run evs w2)) /\ store (backend w3) = store (backend w) /\
   (forall ty' t, (t - t0 < SCAN_COOLDOWN)%Z ->
    fst (onBarcodeScanned p ty' t w3)
    = if isProcessing (refs w3) then RejectBusy else RejectDuplicate)).
Proof.
  intros H Hf w2.
  destruct (accept_world _ _ _ _ _ H) as [_ Hw1].
  assert (Hw2 : w2 = snd (onBarcodeScanned_body p ty tw (with_inflight None w1)))
    by (unfold w2; rewrite (settle_world _ _ _ _ Hw1 tw); reflexivity).
  assert (Hs2 : store (backend w2) = store (backend w)).
  { rewrite Hw2, body_store_fail; subst w1; [reflexivity|exact Hf]. }
  assert (Hl2 : last_accepted w2 = (p, t0)).
  { unfold last_accepted; rewrite Hw2, body_keeps_refs; subst w1; reflexivity. }
  assert (Hi2 : inflight w2 = None).
  { rewrite Hw2, body_keeps_inflight; reflexivity. }
  split; [exact Hs2|]; split; [exact Hl2|].
  intros evs Hev w3.
  destruct (run_no_accept p t0 evs w2 Hl2 Hev) as [Hn _].
  destruct (run_keeps_backend p t0 evs w2 Hl2 Hi2 Hev) as [Hb Hl3].
  split; [exact Hn|]; split; [unfold w3; rewrite Hb; exact Hs2|].
  intros ty' t Ht.
  destruct (onBarcodeScanned p ty' t w3) as [dec w'] eqn:E.
  exact (proj1 (scan_within_cooldown_rejected p t0 p ty' t w3 dec w' Hl3 eq_refl Ht E)).
Qed.

Definition offline_world : World := initial_world false [] [] [].

Lemma C9_witness :
  onBarcodeScanned "ABC123" "qr" 0 offline_world
    = (Accept, snd (onBarcodeScanned "ABC123" "qr" 0 offline_world)) /\
  persistence_fails (backend offline_world) /\
  fst (onBarcodeScanned "ABC123" "qr" 1500
         (snd (run [Tick 1010]
                   (snd (step (Settle 10)
                              (snd (onBarcodeScanned "ABC123" "qr" 0 offline_world)))))))
  = RejectDuplicate.
Proof.
  split; [reflexivity|]; split; [left; reflexivity|].
  refine (eq_trans
    (proj2 (proj2 (proj2 (proj2 (C9_dedup_before_persist offline_world "ABC123" "qr" 0
       (snd (onBarcodeScanned "ABC123" "qr" 0 offline_world)) 10 eq_refl
       (or_introl eq_refl))) [Tick 1010] ltac:(repeat constructor))) "qr"%string 1500%Z
       ltac:(unfold SCAN_COOLDOWN; lia)) _).
  reflexivity.
Defined.

(** ** Storing an accepted scan *)

Lemma updateData_ok w :
  exists w', updateData w = (Ok tt, w') /\
  store (backend w') = store (backend w) /\ alerts (ui w') = alerts (ui w) /\
  timers w' = timers w /\ refs w' = refs w /\ inflight w' = inflight w.
Proof.
  destruct w as [r ts inf [dbb st nid dbF dbC nF rq] u].
  destruct dbF as [|[|] [|[|] fs]]; eexists; split;
    try reflexivity; repeat split; reflexivity.
Qed.

(** When the work of an accepted scan of [p] settles with the database
    connected and its first two calls succeeding, the store is unchanged if
    a record with payload [p] already exists, and otherwise gains exactly
    one new record for [p]. *)
Lemma settle_store_healthy w p ty tw :
  inflight w = Some (p, ty) -> db (backend w) = true ->
  forallb negb (firstn 2 (dbFaults (backend w))) = true ->
  store (backend (snd (step (Settle tw) w)))
  = if existsb (fun c => String.eqb (data c) p) (store (backend w))
    then store (backend w)
    else mkCode (next_id (backend w)) p ty tw :: store (backend w).
Proof.
  destruct w as [r ts inf [dbb st nid dbF dbC nF rq] u]; simpl.
  intros -> -> Hf; simpl.
  unfold onBarcodeScanned_body, onBarcodeScanned_try.
  destruct (existsb (fun c => String.eqb (data c) p) st) eqn:Ex.
  - destruct dbF as [|[|] [|[|] fs]]; simpl in Hf; try discriminate;
      cbv -[existsb];
      match goal with
      | |- context [existsb ?f st] =>
          let H := fresh in assert (H : existsb f st = true) by exact Ex; rewrite H
      end; reflexivity.
  - destruct dbF as [|[|] [|[|] fs]]; simpl in Hf; try discriminate;
      cbv -[existsb updateData];
      match goal with
      | |- context [existsb ?f st] =>
          let H := fresh in assert (H : existsb f st = false) by exact Ex; rewrite H
      end;
      match goal with
      | |- context [updateData ?x] =>
          destruct (updateData_ok x) as [w' [-> [Hs _]]]; simpl in Hs
      end;
      exact Hs.
Qed.

Lemma existsb_false_filter {A} (f : A -> bool) l :
  existsb f l = false -> filter f l = [].
Proof.
  induction l as [|x l IH]; simpl; [reflexivity|].
  destruct (f x); simpl; [discriminate|exact IH].
Qed.

Lemma existsb_true_filter {A} (f : A -> bool) l :
  existsb f l = true -> (1 <= length (filter f l))%nat.
Proof.
  induction l as [|x l IH]; simpl; [discriminate|].
  destruct (f x); simpl; [lia|exact IH].
Qed.

(** C4 (amended): in the scanner screen the existence check decides
    whether a record is created.  When the work of an accepted scan of [p]
    settles with the database connected and its first two calls
    succeeding: if a record with payload [p] already exists, the store is
    unchanged and the only effect the user sees is the "Código ya
    escaneado" notification (no alert, the list shown is not refreshed);
    otherwise exactly one new record for [p] is added (the insert itself
    never dedupes).  So the number of records with payload [p] becomes
    [max 1 n] where it was [n]: accepting the same payload any number of
    times leaves exactly one record with it. *)
Theorem C4_insert_only_when_new w p ty tw :
  inflight w = Some (p, ty) -> db (backend w) = true ->
  forallb negb (firstn 2 (dbFaults (backend w))) = true ->
  let w' := snd (step (Settle tw) w) in
  let has := existsb (fun c => String.eqb (data c) p) (store (backend w)) in
  store (backend w')
    = (if has then store (backend w)
       else mkCode (next_id (backend w)) p ty tw :: store (backend w)) /\
  (has = true ->
   notifications (ui w') = notifications (ui w) ++ [("Código ya escaneado: " ++ p)%string] /\
   alerts (ui w') = alerts (ui w) /\
   scannedCodes (ui w') = scannedCodes (ui w)) /\
  length (filter (fun c => String.eqb (data c) p) (store (backend w')))
    = Nat.max 1 (length (filter (fun c => String.eqb (data c) p) (store (backend w)))).
Proof.
  intros Hi Hd Hf; cbv zeta.
  pose proof (settle_store_healthy w p ty tw Hi Hd Hf) as Hs.
  split; [exact Hs|split].
  - intros Hh.
    destruct w as [r ts inf [dbb st nid dbF dbC nF rq] u]; simpl in *.
    subst inf dbb.
    destruct dbF as [|[|] fs]; simpl in Hf; try discriminate.
    all: repeat split; cbv -[existsb];
      match goal with
      | E : existsb _ ?s = true |- context [existsb ?f ?s] =>
          let H := fresh in assert (H : existsb f s = true) by exact E; rewrite H
      end; reflexivity.
  - rewrite Hs.
    destruct (existsb (fun c => String.eqb (data c) p) (store (backend w))) eqn:E.
    + pose proof (existsb_true_filter _ _ E); lia.
    + simpl; rewrite String.eqb_refl, (existsb_false_filter _ _ E); reflexivity.
Qed.

Lemma C4_witness :
  inflight busy_world = Some ("ABC123", "qr")%string /\
  db (backend busy_world) = true /\
  forallb negb (firstn 2 (dbFaults (backend busy_world))) = true /\
  store (backend (snd (step (Settle 10) busy_world)))
  = [mkCode 0 "ABC123" "qr" 10].
Proof.
  split; [reflexivity|]; split; [reflexivity|]; split; [reflexivity|].
  rewrite (proj1 (C4_insert_only_when_new busy_world "ABC123" "qr" 10 eq_refl eq_refl eq_refl)).
  reflexivity.
Defined.

Definition three_scans : list Event :=
  [Scan "ABC123" "qr" 0; Settle 10; Tick 1010;
   Scan "ABC123" "qr" 4000; Settle 4010; Tick 5010;
   Scan "ABC123" "qr" 8000; Settle 8010].

(** C4, as stated, fails: "ABC123" is accepted three times, each past the
    cooldown and after the previous release, with the database connected
    and healthy; the store then holds one record with that payload, not
    three. *)
Lemma C4_counterexample :
  fst (run three_scans fresh_world) = [Accept; Accept; Accept] /\
  length (filter (fun c => String.eqb (data c) "ABC123")
                 (store (backend (snd (run three_scans fresh_world))))) = 1%nat.
Proof. split; vm_compute; reflexivity. Qed.

(** ** Synchronisation in remote mode *)

Lemma bind_err {A B} (m : M A) (k : A -> M B) w e :
  fst (m w) = Err e -> bind m k w = (Err e, snd (m w)).
Proof. unfold bind; destruct (m w) as [[a|e'] w']; simpl; congruence. Qed.

Lemma forM_cons {A} (f : A -> M unit) c cs w :
  forM_ f (c :: cs) w
  = match f c w with
    | (Ok _, w') => forM_ f cs w'
    | (Err e, w') => (Err e, w')
    end.
Proof. reflexivity. Qed.

Lemma fetch_step req w fault rest :
  netFaults (backend w) = fault :: rest ->
  fetch req w
  = (if fault then Err "TypeError: Network request failed"%string else Ok tt,
     with_backend (mkBackend (db (backend w)) (store (backend w)) (next_id (backend w))
                             (dbFaults (backend w)) (dbCalls (backend w)) rest
                             (requests (backend w) ++ [req])) w).
Proof. intros H; unfold fetch; rewrite H; destruct fault; reflexivity. Qed.

Lemma forM_fetch_fail api codes :
  forall k w rest, (k < length codes)%nat ->
  netFaults (backend w) = repeat false k ++ true :: rest ->
  let r := forM_ (fun c => fetch (code_request api c)) codes w in
  fst r = Err "TypeError: Network request failed" /\
  requests (backend (snd r))
    = requests (backend w) ++ map (code_request api) (firstn (S k) codes) /\
  ui (snd r) = ui w.
Proof.
  induction codes as [|c cs IH]; intros k w rest Hk Hn r; simpl in Hk; [lia|].
  subst r; rewrite forM_cons.
  destruct k as [|k]; simpl in Hn; rewrite (fetch_step _ _ _ _ Hn).
  - repeat split; reflexivity.
  - match goal with
    | |- context [forM_ ?f cs ?x] =>
        destruct (IH k x rest ltac:(lia) eq_refl) as [A [B C]]
    end.
    repeat split; [exact A| |exact C].
    rewrite B; simpl; rewrite <- app_assoc; reflexivity.
Qed.

Definition sync_error_alert : string * string :=
  ("Error de Sincronización",
   "No se pudieron sincronizar los códigos. Verifica tu conexión.")%string.

(** C5 (amended): in remote mode the records are sent one by one in list
    order; when the send of record [k+1] rejects (a network error: an HTTP
    error status does not reject [fetch]) after [k] successful sends, no
    further record is sent ([k+1] requests in all) and the only report is
    the generic "Error de Sincronización" alert, which carries no count of
    the records sent; the syncing indicator is cleared. *)
Theorem C5_sync_abort w api now k rest :
  scannedCodes (ui w) <> [] -> (k < length (scannedCodes (ui w)))%nat ->
  netFaults (backend w) = repeat false k ++ true :: rest ->
  let w' := snd (syncWithServer false api now w) in
  requests (backend w')
    = requests (backend w) ++ map (code_request api) (firstn (S k) (scannedCodes (ui w))) /\
  alerts (ui w') = alerts (ui w) ++ [sync_error_alert] /\
  isSyncing (ui w') = false.
Proof.
  destruct w as [r ts inf b [sc st sy al no lg]]; simpl.
  destruct sc as [|c cs]; [congruence|]; intros _ Hk Hn.
  split; [|split].
  all: unfold syncWithServer, bind at 1, get; cbn [fst snd ui scannedCodes].
  all: unfold bind at 1, setIsSyncing at 1, upd_ui at 1, modify at 1; cbn [fst snd].
  all: unfold bind at 1, try_catch at 1, negb.
  all: match goal with
       | |- context [bind (forM_ ?f ?l) ?kont ?x] =>
           destruct (forM_fetch_fail api l k x rest Hk Hn) as [A [B C]];
           rewrite (bind_err _ _ _ _ A);
           remember (snd (forM_ f l x)) as w2 eqn:E2
       end.
  all: destruct w2 as [r2 ts2 inf2 b2 u2]; simpl in B, C; subst u2.
  all: simpl.
  - exact B.
  - reflexivity.
  - reflexivity.
Qed.

Definition three_codes : list ScannedCode :=
  [mkCode 2 "C3" "qr" 30; mkCode 1 "C2" "qr" 20; mkCode 0 "C1" "qr" 10].

Lemma C5_witness :
  scannedCodes (ui (initial_world true three_codes [] [false; true])) <> [] /\
  alerts (ui (snd (syncWithServer false API_URL 0
                     (initial_world true three_codes [] [false; true]))))
  = [sync_error_alert].
Proof.
  split; [discriminate|].
  exact (proj1 (proj2 (C5_sync_abort (initial_world true three_codes [] [false; true])
                         API_URL 0 1 [] ltac:(discriminate) ltac:(simpl; lia) eq_refl))).
Defined.

(** C5, as stated, fails: syncing three records where the second send
    fails (one record sent) and where the first fails (none sent) leaves
    exactly the same user-visible state, so the report cannot carry the
    number of records sent before the failure. *)
Lemma C5_counterexample :
  let w1 := snd (syncWithServer false API_URL 0 (initial_world true three_codes [] [false; true])) in
  let w0 := snd (syncWithServer false API_URL 0 (initial_world true three_codes [] [true])) in
  length (requests (backend w1)) = 2%nat /\ length (requests (backend w0)) = 1%nat /\
  ui w1 = ui w0 /\
  ~ (exists partialCount : Ui -> nat, partialCount (ui w1) = 1%nat /\ partialCount (ui w0) = 0%nat).
Proof.
  intros w1 w0.
  assert (Hu : ui w1 = ui w0) by (vm_compute; reflexivity).
  split; [vm_compute; reflexivity|]; split; [vm_compute; reflexivity|].
  split; [exact Hu|].
  intros [f [H1 H0]]; rewrite Hu in H1; congruence.
Qed.

(** ** Storage failures *)




(** ** Synchronisation in local mode *)

(** C7: in local mode, syncing a non-empty list issues no request (neither
    at the call nor when its timer fires) and registers one callback, due
    500 ms later, that shows the "Modo Local" alert with the number of
    codes held. *)
Theorem C7_local_mode_notice w api now :
  scannedCodes (ui w) <> [] ->
  let w' := snd (syncWithServer true api now w) in
  let n := length (scannedCodes (ui w)) in
  requests (backend w') = requests (backend w) /\
  timers w' = timers w ++ [((now + 500)%Z, TLocalModeNotice n)] /\
  (forall t, requests (backend (fire_timers t w')) = requests (backend w)) /\
  (forall w0, alerts (ui (snd (run_timer (TLocalModeNotice n) w0)))
     = alerts (ui w0) ++
       [("Modo Local",
         "Estás trabajando en modo local. Tienes " ++ string_of_nat n
         ++ " códigos almacenados localmente.")%string]).
Proof.
  destruct w as [r ts inf b [sc st sy al no lg]]; simpl.
  destruct sc as [|c cs]; [congruence|]; intros _.
  split; [reflexivity|]; split; [reflexivity|]; split; [|reflexivity].
  intros t.
  rewrite (fire_timers_keeps (fun w => requests (backend w))).
  - reflexivity.
  - intros tm w0; simpl; rewrite (run_timer_keeps_backend tm w0); reflexivity.
  - intros; reflexivity.
Qed.

Definition two_codes : list ScannedCode :=
  [mkCode 1 "r2" "qr" 20; mkCode 0 "r1" "code128" 10].

Lemma C7_witness :
  scannedCodes (ui (initial_world true two_codes [] [])) <> [] /\
  timers (snd (syncWithServer true API_URL 0 (initial_world true two_codes [] [])))
    = [(500%Z, TLocalModeNotice 2)] /\
  alerts (ui (fire_timers 500
                (snd (syncWithServer true API_URL 0 (initial_world true two_codes [] [])))))
    = [("Modo Local",
        "Estás trabajando en modo local. Tienes 2 códigos almacenados localmente.")%string] /\
  requests (backend (fire_timers 500
                (snd (syncWithServer true API_URL 0 (initial_world true two_codes [] [])))))
    = [].
Proof.
  split; [discriminate|].
  split; [exact (proj1 (proj2 (C7_local_mode_notice (initial_world true two_codes [] [])
                                 API_URL 0 ltac:(discriminate))))|].
  split; [vm_compute; reflexivity|].
  exact (proj1 (proj2 (proj2 (C7_local_mode_notice (initial_world true two_codes [] [])
                                API_URL 0 ltac:(discriminate)))) 500%Z).
Defined.

(** ** The body of a sync request *)

Definition one_code : ScannedCode := mkCode 0 "ABC123" "qr" 1700000000000.

(** C8: the primary screen sends, for a record, a POST to [/codigos] with
    the JSON content type and a body with the fields [data], [type] and
    [timestamp]; the alternate screen of the same file sends for the same
    record a body with [data] and [type] only: the timestamp is dropped. *)
Theorem C8_alt_screen_drops_timestamp :
  requests (backend (snd (syncWithServer false API_URL 0
                            (initial_world true [one_code] [] []))))
  = [mkRequest "http://localhost:3000/codigos" "POST" json_headers
       (JObj [("data", JStr "ABC123"); ("type", JStr "qr");
              ("timestamp", JNum 1700000000000)]%string)] /\
  requests (backend (snd (syncWithServer_alt false API_URL 0
                            (initial_world true [one_code] [] []))))
  = [mkRequest "http://localhost:3000/codigos" "POST" json_headers
       (JObj [("data", JStr "ABC123"); ("type", JStr "qr")]%string)].
Proof. split; vm_compute; reflexivity. Qed.


(** * Further functions of the screens *)

(** ** Mounting the screen *)

Definition throw {A} (e : string) : M A := fun w => (Err e, w).

(** Modelled from the spec: [connectDb()] of [../src/database]; it resolves
    when the database can be opened (the [db] flag of the backend) and
    rejects with a storage error otherwise. *)
Definition connectDb : M unit :=
  w <- get;;
  if db (backend w) then ret tt else throw "StorageError".

(** [retrieveLocalDbData] of the mount effect of the primary screen and of
    src/app/index.tsx; [setDB(database)] is the [db] flag itself. *)
Definition retrieveLocalDbData : M unit :=
  try_catch
    (_ <- connectDb;; updateData)
    (fun error =>
       _ <- log ("Error conectando a la base de datos: " ++ error);;
       alert "Error" "No se pudo conectar a la base de datos").

(** The screen as first rendered, before its mount effect has run: refs
    initialised, no timer, empty list and the initial statistics. *)
Definition mounted_world (dbok : bool) (s : list ScannedCode)
    (dbF netF : list bool) : World :=
  mkWorld (mkRefs EmptyString 0 false) [] None
          (mkBackend dbok s (length s) dbF 0 netF [])
          (mkUi [] emptyStats false [] [] []).

(** ** Notifications on each platform *)

(** What [showNotification] finds on the device: [Platform.OS === "web"],
    [window.Notification], [Notification.permission], the outcome of
    [Notification.requestPermission()], whether [new Notification(...)]
    succeeds, and whether [Notifications.scheduleNotificationAsync]
    resolves. *)
Record NotifEnv := mkNotifEnv {
  os_web : bool;
  has_Notification : bool;
  permission : string;
  requestPermission : Res string;
  notification_ok : bool;
  schedule_ok : bool
}.

Definition of_res {A} (r : Res A) : M A := fun w => (r, w).

(** [showNotification(message)] with its platform branches; a browser or
    native notification shown is recorded in [notifications] (as by
    [showNotification]). *)
Definition showNotification_on (env : NotifEnv) (message : string) : M unit :=
  try_catch
    (if os_web env then
       if has_Notification env && negb (String.eqb (permission env) "denied") then
         permission <- of_res (requestPermission env);;
         if String.eqb permission "granted" then
           if notification_ok env then showNotification message
           else throw "TypeError: Illegal constructor"
         else alert "QR Scanner" message
       else alert "QR Scanner" message
     else if schedule_ok env then showNotification message
     else throw "Error: scheduleNotificationAsync rejected")
    (fun error =>
       _ <- log ("Error mostrando notificación: " ++ error);;
       alert "QR Scanner" message).

(** The branch conditions under which a notification (rather than an alert)
    reaches the user. *)
Definition shows_notification (env : NotifEnv) : bool :=
  if os_web env then
    has_Notification env && negb (String.eqb (permission env) "denied")
    && match requestPermission env with
       | Ok p => String.eqb p "granted"
       | Err _ => false
       end
    && notification_ok env
  else schedule_ok env.

(** ** The screens gated by [isScanning] *)

(** src/app/index.tsx and the alternate screen of src/unnamed/part_000 guard
    scanning with the React state [isScanning] instead of refs.  Their world
    adds that flag and the pending [setIsScanning(true)] callbacks to
    [World]; the calls they share with the primary screen run on [base].
    A handler runs to completion when called: [now] is the time of the
    scan, [tsettle] the time its awaited calls have settled. *)
Inductive Timer2 := TEnableScanning.

Record World2 := mkWorld2 {
  isScanning : bool;
  timers2 : list (Z * Timer2);
  base : World
}.

Definition M2 (A : Type) : Type := World2 -> Res A * World2.

Definition ret2 {A} (a : A) : M2 A := fun w => (Ok a, w).

Definition bind2 {A B} (m : M2 A) (k : A -> M2 B) : M2 B :=
  fun w =>
    match m w with
    | (Ok a, w') => k a w'
    | (Err e, w') => (Err e, w')
    end.

Notation "x <-- m ;; k" := (bind2 m (fun x => k))
  (at level 61, m at next level, right associativity).

Definition get2 : M2 World2 := fun w => (Ok w, w).

(** A call of the shared screen code. *)
Definition lift {A} (m : M A) : M2 A :=
  fun w2 => let (r, w) := m (base w2) in (r, mkWorld2 (isScanning w2) (timers2 w2) w).

Definition setIsScanning (b : bool) : M2 unit :=
  fun w2 => (Ok tt, mkWorld2 b (timers2 w2) (base w2)).

Definition setTimeout2 (now delay : Z) (t : Timer2) : M2 unit :=
  fun w2 => (Ok tt, mkWorld2 (isScanning w2) (timers2 w2 ++ [((now + delay)%Z, t)]) (base w2)).

(** [onBarcodeScanned] of src/app/index.tsx: the re-enabling timer is set
    before the first [await]; nothing catches a rejection. *)
Definition onBarcodeScanned_index (scannedData ty : string) (now tsettle : Z) : M2 unit :=
  w <-- get2;;
  if negb (isScanning w) then ret2 tt else
  _ <-- setIsScanning false;;
  _ <-- setTimeout2 now 1000 TEnableScanning;;
  _ <-- lift (showNotification ("Código escaneado: " ++ scannedData));;
  if db (backend (base w)) then
    _ <-- lift (insertarCodigo scannedData ty tsettle);;
    codes <-- lift consultarCodigos;;
    _ <-- lift (setScannedCodes codes);;
    lift updateData
  else ret2 tt.

(** [onBarcodeScanned] of the alternate screen of src/unnamed/part_000: the
    re-enabling timer is set after the awaited calls, [2000] ms after they
    settle; nothing catches a rejection. *)
Definition onBarcodeScanned_alt (scannedData ty : string) (now tsettle : Z) : M2 unit :=
  w <-- get2;;
  if negb (isScanning w) then ret2 tt else
  _ <-- setIsScanning false;;
  _ <-- lift (showNotification ("Código escaneado: " ++ scannedData));;
  _ <-- (if db (backend (base w)) then
           _ <-- lift (insertarCodigo scannedData ty tsettle);;
           codes <-- lift consultarCodigos;;
           lift (setScannedCodes codes)
         else ret2 tt);;
  setTimeout2 tsettle 2000 TEnableScanning.

Definition run_timer2 (t : Timer2) : M2 unit :=
  match t with TEnableScanning => setIsScanning true end.

Definition is_due2 (now : Z) (e : Z * Timer2) : bool := (fst e <=? now)%Z.

Definition fire_timers2 (now : Z) (w : World2) : World2 :=
  let due := filter (is_due2 now) (timers2 w) in
  let w0 := mkWorld2 (isScanning w) (filter (fun e => negb (is_due2 now e)) (timers2 w)) (base w) in
  fold_left (fun w' e => snd (run_timer2 (snd e) w')) due w0.

Inductive Event2 :=
| Scan2 (scannedData ty : string) (now tsettle : Z)
| Tick2 (now : Z).

(** Runs a sequence of events against one of the two handlers. *)
Definition step2 (handler : string -> string -> Z -> Z -> M2 unit)
    (e : Event2) (w : World2) : World2 :=
  match e with
  | Scan2 d ty now ts => snd (handler d ty now ts w)
  | Tick2 now => fire_timers2 now w
  end.

Definition run2 (handler : string -> string -> Z -> Z -> M2 unit)
    (evs : list Event2) (w : World2) : World2 :=
  fold_left (fun w e => step2 handler e w) evs w.

(** ** Refreshing, deleting and clearing *)

(** [updateData] either refreshes both the list and the statistics from
    the store, with two database calls, or, when either query rejects,
    leaves both as they were and logs the error: the list is never shown
    with statistics of another state. *)
Theorem updateData_all_or_nothing w :
  (forallb negb (firstn 2 (dbFaults (backend w))) = true ->
   let w' := snd (updateData w) in
   scannedCodes (ui w') = store (backend w) /\
   stats (ui w') = computeStats (store (backend w)) /\
   dbCalls (backend w') = (dbCalls (backend w) + 2)%nat /\
   logs (ui w') = logs (ui w)) /\
  (existsb (fun b => b) (firstn 2 (dbFaults (backend w))) = true ->
   let w' := snd (updateData w) in
   scannedCodes (ui w') = scannedCodes (ui w) /\
   stats (ui w') = stats (ui w) /\
   logs (ui w') = logs (ui w) ++ ["Error actualizando datos: StorageError"%string]).
Proof.
  destruct w as [r ts inf [dbb st nid dbF dbC nF rq] u]; simpl.
  split; destruct dbF as [|[|] [|[|] fs]]; simpl; intros H;
    try discriminate; repeat split; try reflexivity; simpl; lia.
Qed.

Lemma updateData_all_or_nothing_witness :
  forallb negb (firstn 2 (dbFaults (backend (initial_world true three_codes [] [])))) = true /\
  scannedCodes (ui (snd (updateData (initial_world true three_codes [] [])))) = three_codes.
Proof.
  split; [reflexivity|].
  exact (proj1 (proj1 (updateData_all_or_nothing (initial_world true three_codes [] [])) eq_refl)).
Defined.

(** With the database connected and its calls succeeding, [deleteCode i]
    removes every record with identifier [i] from the store and the
    displayed list (statistics recomputed, no alert), and the confirmed
    clear empties the store, the list and the statistics and reports
    "Éxito".  Without a database connection both are no-ops. *)
Theorem delete_clear_success w i :
  (db (backend w) = true -> forallb negb (firstn 3 (dbFaults (backend w))) = true ->
   let w' := snd (deleteCode i w) in
   let s' := filter (fun c => negb (Nat.eqb (id c) i)) (store (backend w)) in
   store (backend w') = s' /\ scannedCodes (ui w') = s' /\
   stats (ui w') = computeStats s' /\ alerts (ui w') = alerts (ui w)) /\
  (db (backend w) = true -> forallb negb (firstn 3 (dbFaults (backend w))) = true ->
   let w' := snd (clearScannedCodes_confirmed w) in
   store (backend w') = [] /\ scannedCodes (ui w') = [] /\
   stats (ui w') = emptyStats /\
   alerts (ui w') = alerts (ui w) ++ [("Éxito", "Historial limpiado")%string]) /\
  (db (backend w) = false ->
   deleteCode i w = (Ok tt, w) /\ clearScannedCodes_confirmed w = (Ok tt, w)).
Proof.
  destruct w as [r ts inf [dbb st nid dbF dbC nF rq] u]; simpl.
  split; [|split].
  - intros -> H; destruct dbF as [|[|] [|[|] [|[|] fs]]]; simpl in H;
      try discriminate; repeat split; reflexivity.
  - intros -> H; destruct dbF as [|[|] [|[|] [|[|] fs]]]; simpl in H;
      try discriminate; repeat split; reflexivity.
  - intros ->; split; reflexivity.
Qed.

Lemma delete_clear_success_witness :
  db (backend (initial_world true three_codes [] [])) = true /\
  forallb negb (firstn 3 (dbFaults (backend (initial_world true three_codes [] [])))) = true /\
  scannedCodes (ui (snd (deleteCode 1 (initial_world true three_codes [] []))))
    = [mkCode 2 "C3" "qr" 30; mkCode 0 "C1" "qr" 10].
Proof.
  split; [reflexivity|]; split; [reflexivity|].
  exact (proj1 (proj2 (proj1 (delete_clear_success (initial_world true three_codes [] []) 1)
                        eq_refl eq_refl))).
Defined.

(** When the delete or clear succeeds but the refresh that follows fails
    (at its list query or at its statistics query), the store has changed
    while the displayed list and statistics keep their old values and no
    error is shown; the clear still reports "Éxito". *)
Theorem stale_list_after_failed_refresh w i fs :
  db (backend w) = true -> dbFaults (backend w) = false :: fs ->
  existsb (fun b => b) (firstn 2 fs) = true ->
  (let w' := snd (deleteCode i w) in
   store (backend w') = filter (fun c => negb (Nat.eqb (id c) i)) (store (backend w)) /\
   scannedCodes (ui w') = scannedCodes (ui w) /\ stats (ui w') = stats (ui w) /\
   alerts (ui w') = alerts (ui w)) /\
  (let w' := snd (clearScannedCodes_confirmed w) in
   store (backend w') = [] /\ scannedCodes (ui w') = scannedCodes (ui w) /\
   stats (ui w') = stats (ui w) /\
   alerts (ui w') = alerts (ui w) ++ [("Éxito", "Historial limpiado")%string]).
Proof.
  destruct w as [r ts inf [dbb st nid dbF dbC nF rq] u]; simpl.
  intros -> -> H.
  destruct fs as [|[|] [|[|] fs]]; simpl in H; try discriminate;
    repeat split; reflexivity.
Qed.

Lemma stale_list_after_failed_refresh_witness :
  let w := initial_world true three_codes [false; false; true] [] in
  db (backend w) = true /\
  dbFaults (backend w) = [false; false; true] /\
  existsb (fun b => b) (firstn 2 [false; true]) = true /\
  scannedCodes (ui (snd (clearScannedCodes_confirmed w))) = three_codes /\
  store (backend (snd (clearScannedCodes_confirmed w))) = [].
Proof.
  cbv zeta; split; [reflexivity|]; split; [reflexivity|]; split; [reflexivity|].
  pose proof (proj2 (stale_list_after_failed_refresh
                       (initial_world true three_codes [false; false; true] []) 0 [false; true]
                       eq_refl eq_refl eq_refl)) as [Hs [Hl _]].
  split; [exact Hl|exact Hs].
Defined.

(** ** Mounting *)

(** The mount effect: with the database connected and both queries
    succeeding, the list and statistics shown are those of the store; when
    a query fails the list and statistics shown keep their values and no
    alert is raised; when the
    connection fails the "No se pudo conectar" alert is raised and no
    query is made.  From the first render with healthy storage, it yields
    exactly the screen state [initial_world] describes. *)
Theorem mount_outcomes w :
  (db (backend w) = true -> forallb negb (firstn 2 (dbFaults (backend w))) = true ->
   let w' := snd (retrieveLocalDbData w) in
   scannedCodes (ui w') = store (backend w) /\
   stats (ui w') = computeStats (store (backend w)) /\ alerts (ui w') = alerts (ui w)) /\
  (db (backend w) = true -> existsb (fun b => b) (firstn 2 (dbFaults (backend w))) = true ->
   let w' := snd (retrieveLocalDbData w) in
   scannedCodes (ui w') = scannedCodes (ui w) /\ stats (ui w') = stats (ui w) /\
   alerts (ui w') = alerts (ui w)) /\
  (db (backend w) = false ->
   let w' := snd (retrieveLocalDbData w) in
   alerts (ui w') = alerts (ui w) ++ [("Error", "No se pudo conectar a la base de datos")%string] /\
   dbCalls (backend w') = dbCalls (backend w)) /\
  (forall s netF,
   ui (snd (retrieveLocalDbData (mounted_world true s [] netF)))
   = ui (initial_world true s [] netF)).
Proof.
  split; [|split; [|split]].
  - destruct w as [r ts inf [dbb st nid dbF dbC nF rq] u]; simpl.
    intros -> H; destruct dbF as [|[|] [|[|] fs]]; simpl in H;
      try discriminate; repeat split; reflexivity.
  - destruct w as [r ts inf [dbb st nid dbF dbC nF rq] u]; simpl.
    intros -> H; destruct dbF as [|[|] [|[|] fs]]; simpl in H;
      try discriminate; repeat split; reflexivity.
  - destruct w as [r ts inf [dbb st nid dbF dbC nF rq] u]; simpl.
    intros ->; split; reflexivity.
  - intros s netF; reflexivity.
Qed.

Lemma mount_outcomes_witness :
  db (backend (mounted_world false three_codes [] [])) = false /\
  alerts (ui (snd (retrieveLocalDbData (mounted_world false three_codes [] []))))
    = [("Error", "No se pudo conectar a la base de datos")%string].
Proof.
  split; [reflexivity|].
  exact (proj1 (proj1 (proj2 (proj2 (mount_outcomes (mounted_world false three_codes [] []))))
                  eq_refl)).
Defined.

(** ** The scan guards and the settled work of the primary screen *)

(** Edges of the cooldown guard (processing flag clear): a payload other
    than the last accepted one is accepted at once; the last one is
    accepted again from exactly [SCAN_COOLDOWN] ms after its acceptance on
    (the comparison is strict), and rejected as a duplicate before that,
    including when the clock reads earlier than the last acceptance. *)
Theorem cooldown_edges w d ty t :
  isProcessing (refs w) = false ->
  (d <> lastScannedCode (refs w) -> fst (onBarcodeScanned d ty t w) = Accept) /\
  ((lastScannedTime (refs w) + SCAN_COOLDOWN <= t)%Z ->
   fst (onBarcodeScanned d ty t w) = Accept) /\
  (d = lastScannedCode (refs w) -> (t < lastScannedTime (refs w) + SCAN_COOLDOWN)%Z ->
   fst (onBarcodeScanned d ty t w) = RejectDuplicate).
Proof.
  intros Hp; unfold onBarcodeScanned; rewrite Hp.
  split; [|split].
  - intros Hd.
    destruct (String.eqb_spec (lastScannedCode (refs w)) d) as [E|E];
      [congruence|reflexivity].
  - intros Ht.
    assert (E : (t - lastScannedTime (refs w) <? SCAN_COOLDOWN)%Z = false)
      by (apply Z.ltb_ge; lia).
    rewrite E, andb_false_r; reflexivity.
  - intros -> Ht; rewrite String.eqb_refl.
    assert (E : (t - lastScannedTime (refs w) <? SCAN_COOLDOWN)%Z = true)
      by (apply Z.ltb_lt; lia).
    rewrite E; reflexivity.
Qed.

Lemma cooldown_edges_witness :
  let w := snd (onBarcodeScanned "ABC123" "qr" 0 fresh_world) in
  let w1 := fire_timers 1000 (snd (step (Settle 0) w)) in
  isProcessing (refs w1) = false /\
  (lastScannedTime (refs w1) + SCAN_COOLDOWN <= 3000)%Z /\
  fst (onBarcodeScanned "ABC123" "qr" 3000 w1) = Accept.
Proof.
  cbv zeta.
  assert (Hp : isProcessing (refs (fire_timers 1000 (snd (step (Settle 0)
                 (snd (onBarcodeScanned "ABC123" "qr" 0 fresh_world)))))) = false)
    by (vm_compute; reflexivity).
  split; [exact Hp|]; split; [vm_compute; discriminate|].
  apply (proj1 (proj2 (cooldown_edges _ "ABC123" "qr" 3000 Hp))).
  vm_compute; discriminate.
Defined.

(** What the work of an accepted scan of [p] does when it settles: with no
    database connection, it makes no database call and shows nothing; when
    [p] is already stored, one call is made, the "Código ya escaneado"
    notification is shown and the list is not refreshed; when [p] is new
    and the four calls succeed, the "Nuevo código escaneado" notification
    is shown, one record is added and the list and statistics shown are
    those of the new store. *)
Theorem settle_outcomes w p ty tw :
  inflight w = Some (p, ty) ->
  let w' := snd (step (Settle tw) w) in
  (db (backend w) = false ->
   backend w' = backend w /\ notifications (ui w') = notifications (ui w) /\
   alerts (ui w') = alerts (ui w)) /\
  (forall fs, db (backend w) = true -> dbFaults (backend w) = false :: fs ->
   existsb (fun c => String.eqb (data c) p) (store (backend w)) = true ->
   notifications (ui w') = notifications (ui w) ++ [("Código ya escaneado: " ++ p)%string] /\
   store (backend w') = store (backend w) /\
   dbCalls (backend w') = S (dbCalls (backend w)) /\
   scannedCodes (ui w') = scannedCodes (ui w)) /\
  (db (backend w) = true -> forallb negb (firstn 4 (dbFaults (backend w))) = true ->
   existsb (fun c => String.eqb (data c) p) (store (backend w)) = false ->
   let s' := mkCode (next_id (backend w)) p ty tw :: store (backend w) in
   notifications (ui w') = notifications (ui w) ++ [("Nuevo código escaneado: " ++ p)%string] /\
   store (backend w') = s' /\ scannedCodes (ui w') = s' /\
   stats (ui w') = computeStats s' /\
   dbCalls (backend w') = (dbCalls (backend w) + 4)%nat).
Proof.
  destruct w as [r ts inf [dbb st nid dbF dbC nF rq] u]; simpl.
  intros ->; split; [|split].
  - intros ->; repeat split; reflexivity.
  - intros fs -> -> Ex.
    repeat split; cbv -[existsb];
      match goal with
      | |- context [existsb ?f st] =>
          let H := fresh in assert (H : existsb f st = true) by exact Ex; rewrite H
      end; reflexivity.
  - intros -> Hf Ex.
    destruct dbF as [|[|] [|[|] [|[|] [|[|] fs]]]]; simpl in Hf; try discriminate.
    all: repeat split; cbv -[existsb computeStats Nat.add];
      match goal with
      | E : existsb _ ?s = false |- context [existsb ?f ?s] =>
          let H := fresh in assert (H : existsb f s = false) by exact E; rewrite H
      end; try reflexivity; lia.
Qed.

Lemma settle_outcomes_witness :
  let w := snd (onBarcodeScanned "ABC123" "qr" 0 fresh_world) in
  inflight w = Some ("ABC123", "qr")%string /\
  store (backend (snd (step (Settle 5) w))) = [mkCode 0 "ABC123" "qr" 5].
Proof.
  cbv zeta; split; [reflexivity|].
  exact (proj1 (proj2 (proj2 (proj2 (settle_outcomes
           (snd (onBarcodeScanned "ABC123" "qr" 0 fresh_world)) "ABC123" "qr" 5 eq_refl))
           eq_refl eq_refl eq_refl))).
Defined.

(** ** Notifications *)

(** [showNotification] never rejects and touches neither the store, the
    refs nor the timers; the message reaches the user exactly once: as a
    notification when the platform branch succeeds (native scheduling
    resolves, or on the web the API exists, is not denied, permission is
    granted and the notification is created), and otherwise as a
    "QR Scanner" alert with the same text.  On a device where scheduling
    resolves it is the [showNotification] used by the scan handlers. *)
Theorem showNotification_delivers_once env message w :
  let w' := snd (showNotification_on env message w) in
  fst (showNotification_on env message w) = Ok tt /\
  backend w' = backend w /\ refs w' = refs w /\ timers w' = timers w /\
  (if shows_notification env
   then notifications (ui w') = notifications (ui w) ++ [message] /\
        alerts (ui w') = alerts (ui w)
   else notifications (ui w') = notifications (ui w) /\
        alerts (ui w') = alerts (ui w) ++ [("QR Scanner"%string, message)]) /\
  (os_web env = false -> schedule_ok env = true ->
   showNotification_on env message w = showNotification message w).
Proof.
  destruct env as [web hasN perm req nok sok]; unfold showNotification_on, shows_notification; simpl.
  destruct web; simpl.
  - destruct hasN; simpl.
    + destruct (String.eqb perm "denied"); simpl.
      * repeat split; try reflexivity; intros ? ?; first [discriminate | reflexivity].
      * destruct req as [p|e]; cbv [try_catch bind of_res].
        -- destruct (String.eqb p "granted"); simpl.
           ++ destruct nok; repeat split; try reflexivity; intros ? ?; first [discriminate | reflexivity].
           ++ repeat split; try reflexivity; intros ? ?; first [discriminate | reflexivity].
        -- repeat split; try reflexivity; intros ? ?; first [discriminate | reflexivity].
    + repeat split; try reflexivity; intros ? ?; first [discriminate | reflexivity].
  - destruct sok; repeat split; try reflexivity; intros ? ?; first [discriminate | reflexivity].
Qed.

Lemma showNotification_delivers_once_witness :
  let env := mkNotifEnv false false "default" (Ok "default"%string) true true in
  os_web env = false /\ schedule_ok env = true /\
  showNotification_on env "hola" fresh_world = showNotification "hola" fresh_world.
Proof.
  cbv zeta; split; [reflexivity|]; split; [reflexivity|].
  exact (proj2 (proj2 (proj2 (proj2 (proj2 (showNotification_delivers_once
           (mkNotifEnv false false "default" (Ok "default"%string) true true)
           "hola" fresh_world))))) eq_refl eq_refl).
Defined.

(** ** Synchronisation *)

(** Syncing an empty list, on either screen and in either mode, only
    shows the "No hay códigos para sincronizar" alert: no request, no
    timer, and the syncing indicator is not touched. *)
Theorem sync_empty_list w local api now :
  scannedCodes (ui w) = [] ->
  (let w' := snd (syncWithServer local api now w) in
   requests (backend w') = requests (backend w) /\ timers w' = timers w /\
   isSyncing (ui w') = isSyncing (ui w) /\
   alerts (ui w') = alerts (ui w) ++ [("Sincronización", "No hay códigos para sincronizar")%string]) /\
  (let w' := snd (syncWithServer_alt local api now w) in
   requests (backend w') = requests (backend w) /\ timers w' = timers w /\
   isSyncing (ui w') = isSyncing (ui w) /\
   alerts (ui w') = alerts (ui w) ++ [("Sincronización", "No hay códigos para sincronizar")%string]).
Proof.
  destruct w as [r ts inf b [sc st sy al no lg]]; simpl; intros ->.
  split; repeat split; reflexivity.
Qed.

Lemma sync_empty_list_witness :
  scannedCodes (ui fresh_world) = [] /\
  alerts (ui (snd (syncWithServer false API_URL 0 fresh_world)))
    = [("Sincronización", "No hay códigos para sincronizar")%string].
Proof.
  split; [reflexivity|].
  exact (proj2 (proj2 (proj2 (proj1 (sync_empty_list fresh_world false API_URL 0 eq_refl))))).
Defined.

Lemma fetch_nil req w :
  netFaults (backend w) = [] ->
  fetch req w
  = (Ok tt,
     with_backend (mkBackend (db (backend w)) (store (backend w)) (next_id (backend w))
                             (dbFaults (backend w)) (dbCalls (backend w)) []
                             (requests (backend w) ++ [req])) w).
Proof. intros H; unfold fetch; rewrite H; reflexivity. Qed.

Lemma forM_fetch_outcome api codes :
  forall w,
  let r := forM_ (fun c => fetch (code_request api c)) codes w in
  exists k, (k <= length codes)%nat /\
  requests (backend (snd r)) = requests (backend w) ++ map (code_request api) (firstn k codes) /\
  ui (snd r) = ui w /\
  (if forallb negb (firstn (length codes) (netFaults (backend w)))
   then fst r = Ok tt /\ k = length codes
   else fst r = Err "TypeError: Network request failed"%string /\ (1 <= k)%nat).
Proof.
  induction codes as [|c cs IH]; intros w r; subst r.
  - exists O; simpl; rewrite app_nil_r; repeat split; reflexivity.
  - rewrite forM_cons.
    destruct (netFaults (backend w)) as [|[|] rest] eqn:Hn.
    + rewrite (fetch_nil _ _ Hn).
      match goal with
      | |- context [forM_ ?f cs ?x] => destruct (IH x) as [k [Hk [B [C D]]]]
      end.
      simpl in D; rewrite firstn_nil in D; simpl in D; destruct D as [D1 D2].
      exists (S k); split; [simpl; lia|]; split.
      * rewrite B; simpl; rewrite <- app_assoc; reflexivity.
      * split; [exact C|]; simpl; split; [exact D1|lia].
    + rewrite (fetch_step _ _ _ _ Hn).
      exists 1%nat; simpl; repeat split; try lia; reflexivity.
    + rewrite (fetch_step _ _ _ _ Hn).
      match goal with
      | |- context [forM_ ?f cs ?x] => destruct (IH x) as [k [Hk [B [C D]]]]
      end.
      simpl in D.
      exists (S k); split; [simpl; lia|]; split.
      * rewrite B; simpl; rewrite <- app_assoc; reflexivity.
      * split; [exact C|]; simpl.
        destruct (forallb negb (firstn (length cs) rest)); destruct D as [D1 D2];
          (split; [exact D1|lia]).
Qed.

Definition sync_ok_alert (n : nat) : string * string :=
  ("Sincronización Exitosa",
   "Se han sincronizado " ++ string_of_nat n ++ " códigos con el servidor")%string.

Lemma sync_remote_eq w api now :
  scannedCodes (ui w) <> [] ->
  syncWithServer false api now w =
  (let w1 := snd (setIsSyncing true w) in
   let r := forM_ (fun code => fetch (code_request api code)) (scannedCodes (ui w)) w1 in
   match fst r with
   | Ok _ =>
       setIsSyncing false
         (snd (alert "Sincronización Exitosa"
                 ("Se han sincronizado " ++ string_of_nat (length (scannedCodes (ui w)))
                  ++ " códigos con el servidor") (snd r)))
   | Err e =>
       setIsSyncing false
         (snd (alert "Error de Sincronización"
                 "No se pudieron sincronizar los códigos. Verifica tu conexión."
                 (snd (log ("Error al sincronizar: " ++ e) (snd r)))))
   end).
Proof.
  destruct w as [r ts inf b [sc st sy al no lg]]; simpl.
  destruct sc as [|c cs]; [congruence|]; intros _.
  cbv [syncWithServer bind try_catch get setIsSyncing upd_ui modify negb].
  cbn [fst snd ui scannedCodes stats isSyncing alerts notifications logs with_ui refs timers inflight backend].
  lazymatch goal with
  | |- context [forM_ ?f ?l ?x] => destruct (forM_ f l x) as [[[]|e] w2]
  end; reflexivity.
Qed.

(** Remote sync of a non-empty list of [n] records: the records are sent
    in list order, a prefix of [k >= 1] of them, followed by exactly one
    alert.  When none of the [n] sends fails, all [n] are sent and the
    alert is the success one with the count [n]; otherwise it is the
    generic error (also when only the last send fails, so [k = n] is then
    possible too).  The indicator ends cleared. *)
Theorem sync_remote_outcome w api now :
  scannedCodes (ui w) <> [] ->
  let codes := scannedCodes (ui w) in
  let w' := snd (syncWithServer false api now w) in
  isSyncing (ui w') = false /\
  exists k, (1 <= k <= length codes)%nat /\
  requests (backend w') = requests (backend w) ++ map (code_request api) (firstn k codes) /\
  (if forallb negb (firstn (length codes) (netFaults (backend w)))
   then k = length codes /\ alerts (ui w') = alerts (ui w) ++ [sync_ok_alert (length codes)]
   else alerts (ui w') = alerts (ui w) ++ [sync_error_alert]).
Proof.
  intros Hne; cbv zeta; rewrite (sync_remote_eq w api now Hne).
  cbv zeta.
  destruct (forM_fetch_outcome api (scannedCodes (ui w)) (snd (setIsSyncing true w)))
    as [k [Hk [B [C D]]]].
  destruct (forM_ (fun code => fetch (code_request api code)) (scannedCodes (ui w))
              (snd (setIsSyncing true w))) as [res w2].
  simpl in B, C, D.
  destruct w2 as [r2 ts2 inf2 b2 u2]; simpl in B, C; subst u2.
  destruct (scannedCodes (ui w)) as [|c cs] eqn:Ec; [congruence|].
  destruct (forallb negb (firstn (length (c :: cs)) (netFaults (backend w)))) eqn:F;
    destruct D as [-> D]; simpl.
  - split; [reflexivity|]; exists k; split; [simpl in *; lia|]; split; [exact B|].
    split; [exact D|reflexivity].
  - split; [reflexivity|]; exists k; split; [simpl in *; lia|]; split; [exact B|].
    reflexivity.
Qed.

Lemma sync_remote_outcome_witness :
  scannedCodes (ui (initial_world true three_codes [] [])) <> [] /\
  alerts (ui (snd (syncWithServer false API_URL 0 (initial_world true three_codes [] []))))
    = [sync_ok_alert 3].
Proof.
  split; [discriminate|].
  destruct (proj2 (sync_remote_outcome (initial_world true three_codes [] []) API_URL 0
                     ltac:(discriminate))) as [k [_ [_ [_ H]]]].
  exact H.
Defined.

Lemma run_timer_syncing t w :
  isSyncing (ui (snd (run_timer t w)))
  = match t with TRelease => isSyncing (ui w) | _ => false end.
Proof. destruct t; reflexivity. Qed.

Lemma fold_timers_syncing (l : list (Z * Timer)) :
  forall w,
  isSyncing (ui (fold_left (fun w' e => snd (run_timer (snd e) w')) l w))
  = if existsb (fun e => negb (is_release e)) l then false else isSyncing (ui w).
Proof.
  induction l as [|[d t] l IH]; intros w; [reflexivity|].
  cbn [fold_left existsb]; rewrite IH, run_timer_syncing.
  destruct t; cbn [is_release snd negb orb];
    destruct (existsb (fun e => negb (is_release e)) l); reflexivity.
Qed.

Lemma fire_timers_syncing now w :
  isSyncing (ui (fire_timers now w))
  = if existsb (fun e => negb (is_release e)) (filter (is_due now) (timers w))
    then false else isSyncing (ui w).
Proof. unfold fire_timers; rewrite fold_timers_syncing; reflexivity. Qed.

Lemma releases_only_filter q (l : list (Z * Timer)) :
  forallb is_release l = true ->
  existsb (fun e => negb (is_release e)) (filter q l) = false.
Proof.
  induction l as [|e l IH]; simpl; [reflexivity|].
  intros H; apply andb_true_iff in H as [H1 H2].
  destruct (q e); simpl; [rewrite H1; simpl|]; apply IH, H2.
Qed.

(** In local mode, syncing a non-empty list turns the syncing indicator
    on, and it stays on until the clock reaches the 500 ms callback, which
    turns it off (when no other sync callback is pending). *)
Theorem sync_local_indicator w api now :
  scannedCodes (ui w) <> [] -> forallb is_release (timers w) = true ->
  let w' := snd (syncWithServer true api now w) in
  isSyncing (ui w') = true /\
  (forall t, (t < now + 500)%Z -> isSyncing (ui (fire_timers t w')) = true) /\
  (forall t, (now + 500 <= t)%Z -> isSyncing (ui (fire_timers t w')) = false).
Proof.
  destruct w as [r ts inf b [sc st sy al no lg]]; simpl.
  destruct sc as [|c cs]; [congruence|]; intros _ Hr.
  match goal with
  | |- context [snd (syncWithServer true api now ?W)] =>
      set (w' := snd (syncWithServer true api now W))
  end.
  assert (Ht1 : timers w' = ts ++ [((now + 500)%Z, TLocalModeNotice (S (length cs)))])
    by reflexivity.
  assert (Hs1 : isSyncing (ui w') = true) by reflexivity.
  split; [exact Hs1|]; split; intros t Ht;
    rewrite fire_timers_syncing, Ht1, Hs1, filter_app, existsb_app,
      releases_only_filter by exact Hr;
    simpl; unfold is_due; simpl.
  - assert (E : (now + 500 <=? t)%Z = false) by (apply Z.leb_gt; lia).
    rewrite E; reflexivity.
  - assert (E : (now + 500 <=? t)%Z = true) by (apply Z.leb_le; lia).
    rewrite E; reflexivity.
Qed.

Lemma sync_local_indicator_witness :
  scannedCodes (ui (initial_world true two_codes [] [])) <> [] /\
  forallb is_release (timers (initial_world true two_codes [] [])) = true /\
  isSyncing (ui (fire_timers 499 (snd (syncWithServer true API_URL 0
                                      (initial_world true two_codes [] []))))) = true.
Proof.
  split; [discriminate|]; split; [reflexivity|].
  apply (proj1 (proj2 (sync_local_indicator (initial_world true two_codes [] []) API_URL 0
                        ltac:(discriminate) eq_refl))); lia.
Defined.

(** ** The screens gated by [isScanning] *)

Lemma fold_timers2_scanning (l : list (Z * Timer2)) :
  forall w,
  isScanning (fold_left (fun w' e => snd (run_timer2 (snd e) w')) l w)
  = match l with [] => isScanning w | _ :: _ => true end.
Proof.
  induction l as [|[d []] l IH]; intros w; [reflexivity|].
  cbn [fold_left]; rewrite IH; destruct l; reflexivity.
Qed.

Lemma fire_timers2_scanning now w :
  isScanning (fire_timers2 now w)
  = match filter (is_due2 now) (timers2 w) with [] => isScanning w | _ :: _ => true end.
Proof. unfold fire_timers2; rewrite fold_timers2_scanning; reflexivity. Qed.

Ltac fault_cases f :=
  destruct f as [|[|] [|[|] [|[|] [|[|] ?]]]].

(** While [isScanning] is off, both handlers do nothing.  When it is on,
    the handler of src/app/index.tsx turns it off and, before awaiting
    anything, schedules its re-enabling 1000 ms after the scan, whatever
    the storage calls do afterwards: scanning is on again once the clock
    reaches that time. *)
Theorem index_scanning_reenabled w d ty now ts :
  (isScanning w = false ->
   onBarcodeScanned_index d ty now ts w = (Ok tt, w) /\
   onBarcodeScanned_alt d ty now ts w = (Ok tt, w)) /\
  (isScanning w = true ->
   let w' := snd (onBarcodeScanned_index d ty now ts w) in
   isScanning w' = false /\
   timers2 w' = timers2 w ++ [((now + 1000)%Z, TEnableScanning)] /\
   isScanning (fire_timers2 (now + 1000) w') = true).
Proof.
  destruct w as [sc tms [r tmrs inf [dbb st nid dbF dbC nF rq] u]]; simpl.
  split.
  - intros ->; split; reflexivity.
  - intros ->.
    assert (A : forall X, isScanning X = false ->
                 timers2 X = tms ++ [((now + 1000)%Z, TEnableScanning)] ->
                 isScanning (fire_timers2 (now + 1000) X) = true).
    { intros X H1 H2; rewrite fire_timers2_scanning, H2, filter_app.
      simpl; unfold is_due2; simpl; rewrite Z.leb_refl.
      destruct (filter _ tms); reflexivity. }
    destruct dbb; fault_cases dbF;
      (split; [reflexivity|]; split; [reflexivity|]; apply A; reflexivity).
Qed.

Lemma index_scanning_reenabled_witness :
  let w := mkWorld2 true [] fresh_world in
  isScanning w = true /\
  isScanning (fire_timers2 1000 (snd (onBarcodeScanned_index "ABC123" "qr" 0 5 w))) = true.
Proof.
  cbv zeta; split; [reflexivity|].
  exact (proj2 (proj2 (proj2 (index_scanning_reenabled (mkWorld2 true [] fresh_world)
                                "ABC123" "qr" 0 5) eq_refl))).
Defined.

(** In the handler of src/app/index.tsx a failing insert rejects the
    handler's promise, which nothing catches: no alert is raised, nothing
    is stored and the list is unchanged, although the "Código escaneado"
    notification has already been shown. *)
Theorem index_insert_failure_unreported w d ty now ts fs :
  isScanning w = true -> db (backend (base w)) = true ->
  dbFaults (backend (base w)) = true :: fs ->
  let r := onBarcodeScanned_index d ty now ts w in
  fst r = Err "StorageError"%string /\
  store (backend (base (snd r))) = store (backend (base w)) /\
  scannedCodes (ui (base (snd r))) = scannedCodes (ui (base w)) /\
  alerts (ui (base (snd r))) = alerts (ui (base w)) /\
  notifications (ui (base (snd r)))
    = notifications (ui (base w)) ++ [("Código escaneado: " ++ d)%string].
Proof.
  destruct w as [sc tms [r tmrs inf [dbb st nid dbF dbC nF rq] u]]; simpl.
  intros -> -> ->; repeat split; reflexivity.
Qed.

Lemma index_insert_failure_unreported_witness :
  let w := mkWorld2 true [] (initial_world true [] [true] []) in
  isScanning w = true /\ db (backend (base w)) = true /\
  dbFaults (backend (base w)) = [true] /\
  fst (onBarcodeScanned_index "ABC123" "qr" 0 5 w) = Err "StorageError"%string.
Proof.
  cbv zeta; split; [reflexivity|]; split; [reflexivity|]; split; [reflexivity|].
  exact (proj1 (index_insert_failure_unreported
                  (mkWorld2 true [] (initial_world true [] [true] [])) "ABC123" "qr" 0 5 []
                  eq_refl eq_refl eq_refl)).
Defined.

(** Neither [isScanning] screen checks whether the payload is already
    stored: every scan they handle with the database healthy adds a new
    record, and the list shown is the new store. *)
Theorem scanning_screens_insert_every_scan w d ty now ts :
  isScanning w = true -> db (backend (base w)) = true ->
  forallb negb (firstn 2 (dbFaults (backend (base w)))) = true ->
  let s' := mkCode (next_id (backend (base w))) d ty ts :: store (backend (base w)) in
  (store (backend (base (snd (onBarcodeScanned_index d ty now ts w)))) = s' /\
   scannedCodes (ui (base (snd (onBarcodeScanned_index d ty now ts w)))) = s') /\
  (store (backend (base (snd (onBarcodeScanned_alt d ty now ts w)))) = s' /\
   scannedCodes (ui (base (snd (onBarcodeScanned_alt d ty now ts w)))) = s').
Proof.
  destruct w as [sc tms [r tmrs inf [dbb st nid dbF dbC nF rq] u]]; simpl.
  intros -> -> H; fault_cases dbF; simpl in H; try discriminate;
    repeat split; reflexivity.
Qed.

Lemma scanning_screens_insert_every_scan_witness :
  let w := run2 onBarcodeScanned_index [Scan2 "ABC123" "qr" 0 10; Tick2 5000]
                (mkWorld2 true [] fresh_world) in
  isScanning w = true /\ db (backend (base w)) = true /\
  forallb negb (firstn 2 (dbFaults (backend (base w)))) = true /\
  store (backend (base (snd (onBarcodeScanned_index "ABC123" "qr" 6000 6010 w))))
    = [mkCode 1 "ABC123" "qr" 6010; mkCode 0 "ABC123" "qr" 10].
Proof.
  cbv zeta.
  split; [vm_compute; reflexivity|]; split; [vm_compute; reflexivity|];
    split; [vm_compute; reflexivity|].
  exact (proj1 (proj1 (scanning_screens_insert_every_scan
    (run2 onBarcodeScanned_index [Scan2 "ABC123" "qr" 0 10; Tick2 5000]
          (mkWorld2 true [] fresh_world)) "ABC123" "qr" 6000 6010
    ltac:(vm_compute; reflexivity) ltac:(vm_compute; reflexivity)
    ltac:(vm_compute; reflexivity)))).
Defined.

Lemma alt_dead_world evs :
  forall w, isScanning w = false -> timers2 w = [] ->
  run2 onBarcodeScanned_alt evs w = w.
Proof.
  induction evs as [|e evs IH]; intros w H1 H2; [reflexivity|].
  unfold run2; cbn [fold_left].
  assert (E : step2 onBarcodeScanned_alt e w = w).
  { destruct w as [sc tms W]; simpl in H1, H2; subst.
    destruct e; reflexivity. }
  rewrite E; apply IH; assumption.
Qed.

(** The alternate screen re-enables scanning only from the end of its
    awaited calls: when they complete (no database, or the insert and the
    reload succeed) scanning is re-enabled 2000 ms after they settle; when
    the insert fails, the rejection escapes before the timer is set, so
    (no re-enabling being pending) scanning stays off for good: every later
    scan and every passing of time leaves the screen exactly as it is. *)
Theorem alt_scanning_lockout w d ty now ts :
  isScanning w = true ->
  (db (backend (base w)) = false \/
   forallb negb (firstn 2 (dbFaults (backend (base w)))) = true ->
   let w' := snd (onBarcodeScanned_alt d ty now ts w) in
   isScanning w' = false /\
   timers2 w' = timers2 w ++ [((ts + 2000)%Z, TEnableScanning)]) /\
  (forall fs, db (backend (base w)) = true -> dbFaults (backend (base w)) = true :: fs ->
   timers2 w = [] ->
   let w' := snd (onBarcodeScanned_alt d ty now ts w) in
   fst (onBarcodeScanned_alt d ty now ts w) = Err "StorageError"%string /\
   isScanning w' = false /\
   store (backend (base w')) = store (backend (base w)) /\
   forall evs, run2 onBarcodeScanned_alt evs w' = w').
Proof.
  destruct w as [sc tms [r tmrs inf [dbb st nid dbF dbC nF rq] u]]; simpl.
  intros ->; split.
  - intros [-> | H].
    + split; reflexivity.
    + destruct dbb; fault_cases dbF; simpl in H; try discriminate; split; reflexivity.
  - intros fs -> -> ->.
    split; [reflexivity|]; split; [reflexivity|]; split; [reflexivity|].
    intros evs; apply alt_dead_world; reflexivity.
Qed.

Lemma alt_scanning_lockout_witness :
  let w := mkWorld2 true [] (initial_world true [] [true] []) in
  isScanning w = true /\ db (backend (base w)) = true /\
  dbFaults (backend (base w)) = [true] /\ timers2 w = [] /\
  run2 onBarcodeScanned_alt [Tick2 100000; Scan2 "XYZ" "qr" 200000 200010]
       (snd (onBarcodeScanned_alt "ABC123" "qr" 0 5 w))
  = snd (onBarcodeScanned_alt "ABC123" "qr" 0 5 w).
Proof.
  cbv zeta; split; [reflexivity|]; split; [reflexivity|]; split; [reflexivity|];
    split; [reflexivity|].
  exact (proj2 (proj2 (proj2 (proj2 (alt_scanning_lockout
           (mkWorld2 true [] (initial_world true [] [true] [])) "ABC123" "qr" 0 5 eq_refl)
           [] eq_refl eq_refl eq_refl)))
           [Tick2 100000; Scan2 "XYZ" "qr" 200000 200010]).
Defined.

(** ** Reachable states of the primary scanner *)

(** In every state reached from a freshly mounted primary screen, through
    any sequence of scans, settlings of accepted work and passing of time:
    while the processing flag is clear no work is in flight and no release
    is pending; while an accepted scan's work is in flight the flag is set
    and no release is pending; and at most one release is ever pending. *)
Theorem scanner_reachable_invariant dbok s dbF netF evs :
  let w := snd (run evs (initial_world dbok s dbF netF)) in
  (isProcessing (refs w) = false -> count_release (timers w) = 0%nat /\ inflight w = None) /\
  (inflight w <> None -> isProcessing (refs w) = true /\ count_release (timers w) = 0%nat) /\
  (count_release (timers w) <= 1)%nat.
Proof.
  apply run_release_inv; unfold release_inv; simpl; repeat split; auto; congruence.
Qed.

Lemma scanner_reachable_invariant_witness :
  let w := snd (run [Scan "ABC123" "qr" 0] (initial_world true [] [] [])) in
  inflight w <> None /\ isProcessing (refs w) = true /\ count_release (timers w) = 0%nat.
Proof.
  cbv zeta.
  assert (H : inflight (snd (run [Scan "ABC123" "qr" 0] (initial_world true [] [] []))) <> None)
    by (vm_compute; discriminate).
  split; [exact H|].
  exact (proj1 (proj2 (scanner_reachable_invariant true [] [] [] [Scan "ABC123" "qr" 0])) H).
Defined.

End ScanQR.
